(** * vk_scripts: presence tracking and online-streak reports

    A shallow embedding of [track_status.py], [vk/user.py], [vk/error.py]
    and [vk/utils/tracking/utils/online_streak_duration.py], followed by
    the properties of the live tracker, of the [User] mapping and of the
    JSON and plot writers.

    Conventions.
    - A Python [str] is a [string] whose characters are the code points
      below 256.
    - A Python [int] is a [Z].
    - A call that may raise returns a [result]; a call that may also log
      returns a [Log], the messages handed to [logging.info] paired with
      the result.
    - A file object opened for writing is the list of the arguments of its
      [write] calls, oldest first. *)

From Stdlib Require Import ZArith String Ascii List Permutation Lia.
From stdpp Require Import base list strings pretty.

Open Scope string_scope.
Open Scope list_scope.

(** ** Exceptions *)

(** The exception classes the modelled code raises or lets through.
    [APIError], [InvalidAPIResponseError] and [APIConnectionError] are the
    classes of [vk/error.py]; the others are Python's own. *)
Inductive exn : Type :=
| KeyboardInterrupt
| SystemExit (code : Z)
| NameError (name : string)
| KeyError (key : string)
| IndexError
| TypeError
| ValueError
| ArgumentTypeError (msg : string)
| NotImplementedError (msg : string)
| APIError
| InvalidAPIResponseError (response : string)
| APIConnectionError.

(** [isinstance(e, Exception)]: every class above derives from [Exception]
    except [KeyboardInterrupt] and [SystemExit], which derive from
    [BaseException] only. *)
Definition is_Exception (e : exn) : bool :=
  match e with
  | KeyboardInterrupt | SystemExit _ => false
  | _ => true
  end.

(** [str(e)], the message [logging.exception] logs. [KeyError] carries the
    [repr] of the missing key and prints it;
    [InvalidAPIResponseError.__str__] returns [str(self.response)]. The
    texts of [TypeError], [ValueError] and of the bare API errors are left
    empty. *)
Definition exn_str (e : exn) : string :=
  match e with
  | KeyboardInterrupt => EmptyString
  | SystemExit c => pretty c
  | NameError n => "name '" +:+ n +:+ "' is not defined"
  | KeyError k => k
  | IndexError => "list index out of range"
  | TypeError | ValueError | APIError | APIConnectionError => EmptyString
  | ArgumentTypeError m | NotImplementedError m => m
  | InvalidAPIResponseError r => r
  end.

Inductive result (A : Type) : Type :=
| Ok (a : A)
| Raise (e : exn).
Arguments Ok {A} a.
Arguments Raise {A} e.

Definition result_bind {A B} (m : result A) (k : A → result B) : result B :=
  match m with
  | Ok a => k a
  | Raise e => Raise e
  end.

Notation "x <- m ;; k" := (result_bind m (fun x => k))
  (at level 100, m at next level, right associativity).

(** Messages logged so far, and how the computation ended. *)
Definition Log (A : Type) : Type := (list string * result A)%type.

Definition log_ret {A} (a : A) : Log A := ([], Ok a).

Definition log_bind {A B} (m : Log A) (k : A → Log B) : Log B :=
  match m with
  | (l, Ok a) => let '(l', r) := k a in (l ++ l', r)
  | (l, Raise e) => (l, Raise e)
  end.

Notation "x <~ m ;; k" := (log_bind m (fun x => k))
  (at level 100, m at next level, right associativity).

(** A pure call inside a logging computation. *)
Definition lift {A} (r : result A) : Log A := ([], r).

(** [logging.info(msg)] at level [INFO]. *)
Definition logging_info (msg : string) : Log unit := ([msg], Ok tt).

(** ** Ordered dictionaries

    [collections.OrderedDict]: an association list in insertion order, a key
    appearing once. Assigning to a present key keeps its position. *)
Section OrderedDict.
Context {K V : Type} `{EqDecision K}.

Fixpoint od_get (k : K) (d : list (K * V)) : option V :=
  match d with
  | [] => None
  | (k', v) :: d' => if decide (k' = k) then Some v else od_get k d'
  end.

Fixpoint od_set (k : K) (v : V) (d : list (K * V)) : list (K * V) :=
  match d with
  | [] => [(k, v)]
  | (k', v') :: d' =>
      if decide (k' = k) then (k', v) :: d' else (k', v') :: od_set k v d'
  end.

Fixpoint od_del (k : K) (d : list (K * V)) : list (K * V) :=
  match d with
  | [] => []
  | (k', v') :: d' =>
      if decide (k' = k) then d' else (k', v') :: od_del k d'
  end.

Definition od_contains (k : K) (d : list (K * V)) : bool :=
  match od_get k d with Some _ => true | None => false end.
End OrderedDict.

(** ** Python values *)

(** Modelled from the spec: [vk/last_seen.py] is missing. A last-seen hint is
    a timestamp the source claims the user was last active, plus an optional
    platform tag. *)
Record LastSeen : Type := mkLastSeen {
  ls_time : Z;
  ls_platform : option Z
}.

(** A JSON object with integer members, the shape of the [last_seen] member of
    an API response. *)
Definition Mapping : Type := list (string * Z).

(** The values a [User] field is assigned from, and holds. *)
Inductive pyval : Type :=
| VNone
| VBool (b : bool)
| VInt (z : Z)
| VStr (s : string)
| VLastSeen (l : LastSeen)
| VMapping (m : Mapping).

(** What the interpreter and the missing [vk/last_seen.py] decide:
    - [str_hash] and [none_hash]: [hash] of a [str] (salted per process) and
      of [None];
    - [LastSeen_from_api_response] and [LastSeen_str]: the constructor
      [LastSeen.from_api_response] and the text [str] gives for a [LastSeen];
    - [Mapping_repr]: the text [str] gives for a mapping. *)
Class Runtime : Type := {
  str_hash : string → Z;
  none_hash : Z;
  LastSeen_from_api_response : Mapping → result LastSeen;
  LastSeen_str : LastSeen → string;
  Mapping_repr : Mapping → string
}.

Global Instance LastSeen_eq_dec : EqDecision LastSeen.
Proof. solve_decision. Defined.

(** *** [int] *)

(** The whitespace [int] drops around a number, on code points below 256:
    tab to carriage return, the space, and the two other than ASCII that
    count as spaces, next line (133) and no-break space (160). The
    separators 28 to 31 are not dropped, though [str.isspace] holds of
    them. *)
Definition is_py_space (c : ascii) : bool :=
  let n := nat_of_ascii c in
  (((9 <=? n) && (n <=? 13)) || (n =? 32)
   || (n =? 133) || (n =? 160))%nat.

Definition is_py_digit (c : ascii) : bool :=
  let n := nat_of_ascii c in ((48 <=? n) && (n <=? 57))%nat.

Definition digit_value (c : ascii) : Z := Z.of_nat (nat_of_ascii c - 48).

Fixpoint lstrip (s : string) : string :=
  match s with
  | String c s' => if is_py_space c then lstrip s' else s
  | EmptyString => EmptyString
  end.

Fixpoint rstrip (s : string) : string :=
  match s with
  | String c s' =>
      match rstrip s' with
      | EmptyString => if is_py_space c then EmptyString else String c EmptyString
      | t => String c t
      end
  | EmptyString => EmptyString
  end.

(** Decimal digits, single underscores allowed between two digits. *)
Fixpoint parse_digits (acc : Z) (after_digit : bool) (s : string) : option Z :=
  match s with
  | EmptyString => if after_digit then Some acc else None
  | String c s' =>
      if is_py_digit c then parse_digits (10 * acc + digit_value c)%Z true s'
      else if Ascii.eqb c "_"%char then
        if after_digit then parse_digits acc false s' else None
      else None
  end.

(** [int(s)] for a [str]: surrounding whitespace is dropped, then an optional
    sign, then the digits. Anything else is a [ValueError]. The limit the
    interpreter puts on the number of digits is left out. *)
Definition int_of_str (s : string) : result Z :=
  let digits (neg : bool) (t : string) : result Z :=
    match parse_digits 0 false t with
    | Some n => Ok (if neg then (- n)%Z else n)
    | None => Raise ValueError
    end in
  match rstrip (lstrip s) with
  | String "-" t => digits true t
  | String "+" t => digits false t
  | t => digits false t
  end.

Definition py_int (x : pyval) : result Z :=
  match x with
  | VBool b => Ok (if b then 1 else 0)%Z
  | VInt z => Ok z
  | VStr s => int_of_str s
  | VNone | VLastSeen _ | VMapping _ => Raise TypeError
  end.

(** *** [bool], [==], [hash] *)

(** [bool(x)]: [None], [False], [0], the empty string and the empty mapping
    are false. *)
Definition py_bool (x : pyval) : bool :=
  match x with
  | VNone => false
  | VBool b => b
  | VInt z => negb (z =? 0)%Z
  | VStr s => negb (String.eqb s EmptyString)
  | VLastSeen _ => true
  | VMapping m => match m with [] => false | _ => true end
  end.

(** Two mappings are equal when they have as many keys and agree on each. *)
Definition Mapping_eqb (a b : Mapping) : bool :=
  (length a =? length b)%nat
  && forallb (fun kv => bool_decide (od_get kv.1 b = Some kv.2)) a.

(** [x == y]. [bool] is a subclass of [int], so [True == 1]. *)
Definition py_eq (x y : pyval) : bool :=
  match x, y with
  | VNone, VNone => true
  | VBool a, VBool b => Bool.eqb a b
  | VBool a, VInt z | VInt z, VBool a => ((if a then 1 else 0) =? z)%Z
  | VInt a, VInt b => (a =? b)%Z
  | VStr a, VStr b => String.eqb a b
  | VLastSeen a, VLastSeen b => bool_decide (a = b)
  | VMapping a, VMapping b => Mapping_eqb a b
  | _, _ => false
  end.

Definition py_ne (x y : pyval) : bool := negb (py_eq x y).

(** [hash(n)] for an [int] on a 64-bit build: the value modulo [2^61 - 1]
    with the sign of [n], and [-2] in place of [-1]. *)
Definition int_hash (z : Z) : Z :=
  let h := (Z.sgn z * (Z.abs z mod (2 ^ 61 - 1)))%Z in
  if (h =? -1)%Z then (-2)%Z else h.

Section Builtins.
Context {R : Runtime}.

(** [hash(x)]; a mapping is unhashable, and so is a [LastSeen], which
    compares by value. *)
Definition py_hash (x : pyval) : result Z :=
  match x with
  | VNone => Ok none_hash
  | VBool b => Ok (int_hash (if b then 1 else 0))
  | VInt z => Ok (int_hash z)
  | VStr s => Ok (str_hash s)
  | VLastSeen _ | VMapping _ => Raise TypeError
  end.

(** [str(x)], which is also what ['{}'.format(x)] inserts. *)
Definition py_str (x : pyval) : string :=
  match x with
  | VNone => "None"
  | VBool b => if b then "True" else "False"
  | VInt z => pretty z
  | VStr s => s
  | VLastSeen l => LastSeen_str l
  | VMapping m => Mapping_repr m
  end.
End Builtins.

(** ** [vk/user.py] *)

Inductive UserField : Type :=
| UID
| FIRST_NAME
| LAST_NAME
| SCREEN_NAME
| ONLINE
| LAST_SEEN.

Global Instance UserField_eq_dec : EqDecision UserField.
Proof. solve_decision. Defined.

(** [UserField.__str__]: the member's value. *)
Definition UserField_str (field : UserField) : string :=
  match field with
  | UID => "uid"
  | FIRST_NAME => "first_name"
  | LAST_NAME => "last_name"
  | SCREEN_NAME => "screen_name"
  | ONLINE => "online"
  | LAST_SEEN => "last_seen"
  end.

(** [repr(field)], as in [<UserField.UID: 'uid'>]. *)
Definition UserField_repr (field : UserField) : string :=
  let name :=
    match field with
    | UID => "UID"
    | FIRST_NAME => "FIRST_NAME"
    | LAST_NAME => "LAST_NAME"
    | SCREEN_NAME => "SCREEN_NAME"
    | ONLINE => "ONLINE"
    | LAST_SEEN => "LAST_SEEN"
    end in
  "<UserField." +:+ name +:+ ": '" +:+ UserField_str field +:+ "'>".

(** [for field in UserField]: the members in definition order. *)
Definition UserField_members : list UserField :=
  [UID; FIRST_NAME; LAST_NAME; SCREEN_NAME; ONLINE; LAST_SEEN].

Record User : Type := mkUser {
  User__fields : list (UserField * pyval)
}.

(** [User(fields)]; without an argument the mapping starts empty. *)
Definition User___init__ (fields : option (list (UserField * pyval))) : User :=
  match fields with
  | None => mkUser []
  | Some d => mkUser d
  end.

Definition User___getitem__ (self : User) (field : UserField) : result pyval :=
  match od_get field (User__fields self) with
  | Some v => Ok v
  | None => Raise (KeyError (UserField_repr field))
  end.

Definition User___delitem__ (self : User) (field : UserField) : result User :=
  if od_contains field (User__fields self)
  then Ok (mkUser (od_del field (User__fields self)))
  else Raise (KeyError (UserField_repr field)).

(** [field in self], the mixin of [Mapping]: [self[field]] did not raise
    [KeyError]. *)
Definition User___contains__ (self : User) (field : UserField) : bool :=
  match User___getitem__ self field with
  | Ok _ => true
  | Raise _ => false
  end.

Definition User___len__ (self : User) : nat := length (User__fields self).

Definition User___iter__ (self : User) : list UserField := (User__fields self).*1.

Definition _parse_online_flag (x : pyval) : result bool :=
  match x with
  | VStr s =>
      if String.eqb "True" s then Ok true
      else if String.eqb "False" s then Ok false
      else Raise ValueError
  | _ => Ok (py_bool x)
  end.

Definition User_get_uid (self : User) : result pyval :=
  User___getitem__ self UID.

Definition User_get_first_name (self : User) : result pyval :=
  User___getitem__ self FIRST_NAME.

Definition User_get_last_name (self : User) : result pyval :=
  User___getitem__ self LAST_NAME.

(** [UserField.LAST_NAME in self and self.get_last_name()]: [False], or the
    stored last name. *)
Definition User_has_last_name (self : User) : result pyval :=
  if User___contains__ self LAST_NAME
  then User_get_last_name self
  else Ok (VBool false).

Definition User_has_screen_name (self : User) : bool :=
  User___contains__ self SCREEN_NAME.

Definition User_has_online_flag (self : User) : bool :=
  User___contains__ self ONLINE.

Definition User_is_online (self : User) : result pyval :=
  User___getitem__ self ONLINE.

Definition User_is_offline (self : User) : result bool :=
  v <- User_is_online self ;; Ok (negb (py_bool v)).

Definition User_has_last_seen (self : User) : bool :=
  User___contains__ self LAST_SEEN.

Definition User_get_last_seen (self : User) : result pyval :=
  User___getitem__ self LAST_SEEN.

(** [self.get_uid() == other.get_uid()] *)
Definition User___eq__ (self other : User) : result bool :=
  a <- User_get_uid self ;;
  b <- User_get_uid other ;;
  Ok (py_eq a b).

Section UserClass.
Context {R : Runtime}.

Definition _parse_last_seen (x : pyval) : result LastSeen :=
  match x with
  | VLastSeen l => Ok l
  | VMapping m => LastSeen_from_api_response m
  | _ => Raise TypeError
  end.

(** [User.parse]: [_FIELD_PARSERS] has [int] for [UID],
    [_parse_online_flag] for [ONLINE] and [_parse_last_seen] for
    [LAST_SEEN]; [_DEFAULT_FIELD_PARSER] is [str]. *)
Definition User_parse (field : UserField) (value : pyval) : result pyval :=
  match field with
  | UID => z <- py_int value ;; Ok (VInt z)
  | ONLINE => b <- _parse_online_flag value ;; Ok (VBool b)
  | LAST_SEEN => l <- _parse_last_seen value ;; Ok (VLastSeen l)
  | FIRST_NAME | LAST_NAME | SCREEN_NAME => Ok (VStr (py_str value))
  end.

Definition User___setitem__ (self : User) (field : UserField) (value : pyval)
  : result User :=
  v <- User_parse field value ;;
  Ok (mkUser (od_set field v (User__fields self))).

Definition User_set_first_name (self : User) (name : pyval) : result User :=
  User___setitem__ self FIRST_NAME name.

Definition User_set_last_name (self : User) (name : pyval) : result User :=
  User___setitem__ self LAST_NAME name.

Definition User_set_screen_name (self : User) (name : pyval) : result User :=
  User___setitem__ self SCREEN_NAME name.

Definition User_set_online_flag (self : User) (value : pyval) : result User :=
  User___setitem__ self ONLINE value.

Definition User_set_last_seen (self : User) (last_seen : pyval) : result User :=
  User___setitem__ self LAST_SEEN last_seen.

(** [User.from_api_response]: every member of [UserField] whose name is a
    key of [source] is assigned, in definition order. *)
Fixpoint from_api_response_loop (members : list UserField)
    (source : list (string * pyval)) (instance : User) : result User :=
  match members with
  | [] => Ok instance
  | field :: rest =>
      match od_get (UserField_str field) source with
      | Some v =>
          instance' <- User___setitem__ instance field v ;;
          from_api_response_loop rest source instance'
      | None => from_api_response_loop rest source instance
      end
  end.

Definition User_from_api_response (source : list (string * pyval))
  : result User :=
  from_api_response_loop UserField_members source (User___init__ None).

Definition User___hash__ (self : User) : result Z :=
  uid <- User_get_uid self ;; py_hash uid.

(** ['id' + str(self.get_uid())] when there is no screen name. *)
Definition User_get_screen_name (self : User) : result pyval :=
  if User_has_screen_name self
  then User___getitem__ self SCREEN_NAME
  else uid <- User_get_uid self ;; Ok (VStr ("id" +:+ py_str uid)).

(** A mutation of a [User]: an assignment [user[field] = value] (the
    setters and the [MutableMapping] mixins [update] and [setdefault] are
    assignments) or a deletion [del user[field]] (as are [pop], [popitem]
    and [clear]). *)
Inductive mutation : Type :=
| SetItem (field : UserField) (value : pyval)
| DelItem (field : UserField).

Definition mutate (self : User) (m : mutation) : result User :=
  match m with
  | SetItem field value => User___setitem__ self field value
  | DelItem field => User___delitem__ self field
  end.

(** A sequence of mutations; one that raises leaves the user as it was, and
    the caller goes on with the next. *)
Fixpoint mutate_all (self : User) (ms : list mutation) : User :=
  match ms with
  | [] => self
  | m :: rest =>
      match mutate self m with
      | Ok self' => mutate_all self' rest
      | Raise _ => mutate_all self rest
      end
  end.
End UserClass.

(** ** [track_status.py] *)

Section TrackStatus.
Context {R : Runtime}.

Definition format_user (user : User) : result string :=
  has_last <- User_has_last_name user ;;
  if py_bool has_last then
    last <- User_get_last_name user ;;
    first <- User_get_first_name user ;;
    Ok (py_str last +:+ " " +:+ py_str first)
  else
    first <- User_get_first_name user ;;
    Ok (py_str first).

Definition format_user_is_online (user : User) : result string :=
  name <- format_user user ;; Ok (name +:+ " is ONLINE").

Definition format_user_is_offline (user : User) : result string :=
  name <- format_user user ;; Ok (name +:+ " is OFFLINE").

Definition format_user_last_seen (user : User) : result string :=
  name <- format_user user ;;
  seen <- User_get_last_seen user ;;
  Ok (name +:+ " was last seen at " +:+ py_str seen).

Definition format_user_went_online (user : User) : result string :=
  name <- format_user user ;; Ok (name +:+ " went ONLINE").

Definition format_user_went_offline (user : User) : result string :=
  name <- format_user user ;; Ok (name +:+ " went OFFLINE").

Definition user_is_online (user : User) : Log unit :=
  msg <~ lift (format_user_is_online user) ;; logging_info msg.

Definition user_is_offline (user : User) : Log unit :=
  msg <~ lift (format_user_is_offline user) ;;
  _ <~ logging_info msg ;;
  msg' <~ lift (format_user_last_seen user) ;;
  logging_info msg'.

Definition user_went_online (user : User) : Log unit :=
  msg <~ lift (format_user_went_online user) ;; logging_info msg.

(** The argument of [logging.info] is [format_usre_went_offline(user)], a
    name the module does not define: looking it up raises [NameError]
    before anything is formatted or logged. *)
Definition user_went_offline (user : User) : Log unit :=
  msg <~ lift (Raise (NameError "format_usre_went_offline")) ;;
  logging_info msg.

Definition print_status (user : User) : Log unit :=
  online <~ lift (User_is_online user) ;;
  if py_bool online then user_is_online user else user_is_offline user.

Definition print_status_update (user : User) : Log unit :=
  online <~ lift (User_is_online user) ;;
  if py_bool online then user_went_online user else user_went_offline user.

Definition parse_timeout (source : pyval) : result Z :=
  timeout <- py_int source ;;
  if (timeout <? 1)%Z then
    Raise (ArgumentTypeError
      "please specify a positive number of seconds as refresh timeout")
  else Ok timeout.

Definition DEFAULT_TIMEOUT : Z := 5.

(** The [-t]/[--timeout] argument: without the flag the value is the
    [default]; with it, [type=parse_timeout] is applied to the string on
    the command line. argparse answers an [ArgumentTypeError], a
    [TypeError] or a [ValueError] of the type function with a usage message
    and [sys.exit(2)]. *)
Definition timeout_argument (flag : option string) : result Z :=
  match flag with
  | Some s =>
      match parse_timeout (VStr s) with
      | Ok timeout => Ok timeout
      | Raise (ArgumentTypeError _) | Raise TypeError | Raise ValueError =>
          Raise (SystemExit 2)
      | Raise e => Raise e
      end
  | None => Ok DEFAULT_TIMEOUT
  end.

(** [for user in users: print_status(user)] *)
Fixpoint print_all (users : list User) : Log unit :=
  match users with
  | [] => log_ret tt
  | user :: rest => _ <~ print_status user ;; print_all rest
  end.

(** The body of the [for i in range(len(updated_users))] loop. [users] is
    updated in place, so the stored list is returned also when the body
    raises. Indexing [users] past its end is an [IndexError]. *)
Definition update_status (updated_users : list User) (i : nat)
    (users : list User) : list User * Log unit :=
  match users !! i, updated_users !! i with
  | Some old, Some new =>
      match User_is_online old with
      | Raise e => (users, lift (Raise e))
      | Ok a =>
          match User_is_online new with
          | Raise e => (users, lift (Raise e))
          | Ok b =>
              if py_ne a b
              then (<[i:=new]> users, print_status_update new)
              else (users, log_ret tt)
          end
      end
  | _, _ => (users, lift (Raise IndexError))
  end.

Fixpoint for_range (indices : list nat) (updated_users users : list User)
  : list User * Log unit :=
  match indices with
  | [] => (users, log_ret tt)
  | i :: rest =>
      match update_status updated_users i users with
      | (users', (l, Ok _)) =>
          let '(users'', (l', r)) := for_range rest updated_users users' in
          (users'', (l ++ l', r))
      | (users', (l, Raise e)) => (users', (l, Raise e))
      end
  end.

(** One pass of the [while True] body after [updated_users] was fetched. *)
Definition update_all (updated_users users : list User)
  : list User * Log unit :=
  for_range (seq 0 (length updated_users)) updated_users users.

(** How far [loop_update_status] got: still in the loop with [users]
    stored (none before the first acquisition), or out of it with an
    exception. The loop has no other exit. *)
Inductive outcome : Type :=
| Running (users : list User)
| Raised (e : exn).

(** [api] lists what each [time.sleep(timeout)] followed by
    [api.users_get(user_ids, fields)] comes to: the users returned, or the
    exception raised meanwhile (an interrupt, an API error). *)
Fixpoint poll (api : list (result (list User))) (users : list User)
  : list string * outcome :=
  match api with
  | [] => ([], Running users)
  | Raise e :: _ => ([], Raised e)
  | Ok updated_users :: rest =>
      match update_all updated_users users with
      | (users', (l, Ok _)) =>
          let '(l', o) := poll rest users' in (l ++ l', o)
      | (_, (l, Raise e)) => (l, Raised e)
      end
  end.

(** The head of [api] is the first acquisition, made without sleeping. *)
Definition loop_update_status (api : list (result (list User)))
  : list string * outcome :=
  match api with
  | [] => ([], Running [])
  | Raise e :: _ => ([], Raised e)
  | Ok users :: rest =>
      match print_all users with
      | (l, Ok _) => let '(l', o) := poll rest users in (l ++ l', o)
      | (l, Raise e) => (l, Raised e)
      end
  end.

(** The [try] statement of the script: the log, and the exit status once
    the process has ended. [KeyboardInterrupt] is passed over and the
    script runs off its end; an [Exception] is logged and followed by
    [sys.exit(1)]; a [SystemExit] is not caught and ends the process with
    its own code. *)
Definition main (api : list (result (list User)))
  : list string * option Z :=
  match loop_update_status api with
  | (l, Running _) => (l, None)
  | (l, Raised KeyboardInterrupt) => (l, Some 0%Z)
  | (l, Raised (SystemExit code)) => (l, Some code)
  | (l, Raised e) => (l ++ [exn_str e], Some 1%Z)
  end.



End TrackStatus.

(** ** [datetime.timedelta] and [json.dumps] *)

(** A normalized [timedelta]: [0 <= seconds < 86400] and
    [0 <= microseconds < 1000000]; [days] carries the sign. *)
Record timedelta : Type := mkTimedelta {
  td_days : Z;
  td_seconds : Z;
  td_microseconds : Z
}.

(** [n] in decimal, zero-padded on the left to [width] characters. *)
Definition zero_pad (width : nat) (n : Z) : string :=
  let digits := pretty n in
  String.concat EmptyString (replicate (width - String.length digits) "0") +:+ digits.

(** [timedelta.__str__]: [H:MM:SS], preceded by [D day, ] or [D days, ] when
    [days] is not zero and followed by [.ffffff] when [microseconds] is
    not. *)
Definition timedelta_str (td : timedelta) : string :=
  let mm := (td_seconds td / 60)%Z in
  let ss := (td_seconds td mod 60)%Z in
  let hh := (mm / 60)%Z in
  let mm := (mm mod 60)%Z in
  let s := pretty hh +:+ ":" +:+ zero_pad 2 mm +:+ ":" +:+ zero_pad 2 ss in
  let s :=
    if (td_days td =? 0)%Z then s
    else pretty (td_days td) +:+ " day"
         +:+ (if (Z.abs (td_days td) =? 1)%Z then EmptyString else "s") +:+ ", " +:+ s in
  if (td_microseconds td =? 0)%Z then s
  else s +:+ "." +:+ zero_pad 6 (td_microseconds td).

#[warnings="-register-all"] Inductive json : Type :=
| JNull
| JBool (b : bool)
| JInt (z : Z)
| JStr (s : string)
| JArray (items : list json)
| JObject (members : list (string * json)).

Definition hex_digit (n : nat) : string :=
  String.substring n 1 "0123456789abcdef".

(** One character of a JSON string with [ensure_ascii]: the short escapes,
    the printable ASCII characters as they are, the rest as [\u00xx]. *)
Definition json_escape_char (c : ascii) : string :=
  let n := nat_of_ascii c in
  if (n =? 34)%nat then "\" +:+ String c EmptyString
  else if (n =? 92)%nat then "\\"
  else if (n =? 10)%nat then "\n"
  else if (n =? 13)%nat then "\r"
  else if (n =? 9)%nat then "\t"
  else if (n =? 8)%nat then "\b"
  else if (n =? 12)%nat then "\f"
  else if ((32 <=? n) && (n <=? 126))%nat then String c EmptyString
  else "\u00" +:+ hex_digit (n / 16) +:+ hex_digit (n mod 16).

Fixpoint json_escape (s : string) : string :=
  match s with
  | EmptyString => EmptyString
  | String c s' => json_escape_char c +:+ json_escape s'
  end.

Definition json_quote (s : string) : string :=
  String "034" (json_escape s) +:+ String "034" EmptyString.

(** A line break followed by [indent * level] spaces. *)
Definition newline_indent (indent level : nat) : string :=
  String "010" (String.concat EmptyString (replicate (indent * level) " ")).

(** [json.dumps(value, indent=indent)]: with an indent the item separator is
    a comma, the key separator a colon and a space; an empty array is [[]]
    and an empty object [{}]. *)
Fixpoint json_encode (indent level : nat) (value : json) : string :=
  match value with
  | JNull => "null"
  | JBool b => if b then "true" else "false"
  | JInt z => pretty z
  | JStr s => json_quote s
  | JArray [] => "[]"
  | JArray items =>
      "[" +:+ newline_indent indent (S level)
      +:+ String.concat ("," +:+ newline_indent indent (S level))
            (map (json_encode indent (S level)) items)
      +:+ newline_indent indent level +:+ "]"
  | JObject [] => "{}"
  | JObject members =>
      "{" +:+ newline_indent indent (S level)
      +:+ String.concat ("," +:+ newline_indent indent (S level))
            (map (fun kv => json_quote kv.1 +:+ ": "
                            +:+ json_encode indent (S level) kv.2) members)
      +:+ newline_indent indent level +:+ "}"
  end.

Definition json_dumps (value : json) (indent : nat) : string :=
  json_encode indent 0 value.

(** The JSON form of a stored value. A mapping is a JSON object; a
    [LastSeen] is an object of a class the encoder does not know, a
    [TypeError]. *)
Definition to_json (x : pyval) : result json :=
  match x with
  | VNone => Ok JNull
  | VBool b => Ok (JBool b)
  | VInt z => Ok (JInt z)
  | VStr s => Ok (JStr s)
  | VMapping m => Ok (JObject (map (fun kv => (kv.1, JInt kv.2)) m))
  | VLastSeen _ => Raise TypeError
  end.

(** The JSON form of a record, members in the record's order. *)
Fixpoint record_to_json (record : list (string * pyval))
  : result (list (string * json)) :=
  match record with
  | [] => Ok []
  | (k, v) :: rest =>
      j <- to_json v ;;
      rest' <- record_to_json rest ;;
      Ok ((k, j) :: rest')
  end.

Fixpoint array_to_json (array : list (list (string * pyval)))
  : result (list json) :=
  match array with
  | [] => Ok []
  | record :: rest =>
      members <- record_to_json record ;;
      rest' <- array_to_json rest ;;
      Ok (JObject members :: rest')
  end.

(** ** [vk/utils/tracking/utils/online_streak_duration.py] *)

(** What [process_database] asks of a writer. *)
Class OutputWriter (W : Type) : Type := {
  add_user_duration : W → User → timedelta → result W
}.

(** [for user, duration in by_user.items(): writer.add_user_duration(...)],
    [by_user] given as its items in order. The writer is returned as the
    loop left it, also when a call raised. *)
Fixpoint process_database {W} `{OutputWriter W}
    (by_user : list (User * timedelta)) (writer : W) : W * result unit :=
  match by_user with
  | [] => (writer, Ok tt)
  | (user, duration) :: rest =>
      match add_user_duration writer user duration with
      | Ok writer' => process_database rest writer'
      | Raise e => (writer, Raise e)
      end
  end.

Definition _USER_FIELDS : list UserField :=
  [UID; FIRST_NAME; LAST_NAME; SCREEN_NAME].

Record OutputWriterJSON : Type := mkOutputWriterJSON {
  OutputWriterJSON__fd : list string;
  OutputWriterJSON__array : list (list (string * pyval))
}.

Definition OutputWriterJSON___init__ (fd : list string) : OutputWriterJSON :=
  mkOutputWriterJSON fd [].

Definition OutputWriterJSON__DURATION_FIELD : string := "duration".

(** [for field in _USER_FIELDS: record[str(field)] = user[field]] *)
Fixpoint record_user_fields (fields : list UserField) (user : User)
    (record : list (string * pyval)) : result (list (string * pyval)) :=
  match fields with
  | [] => Ok record
  | field :: rest =>
      v <- User___getitem__ user field ;;
      record_user_fields rest user (od_set (UserField_str field) v record)
  end.

Definition OutputWriterJSON__user_duration_to_object
    (user : User) (duration : timedelta) : result (list (string * pyval)) :=
  record <- record_user_fields _USER_FIELDS user [] ;;
  Ok (od_set OutputWriterJSON__DURATION_FIELD
        (VStr (timedelta_str duration)) record).

Definition OutputWriterJSON_add_user_duration (self : OutputWriterJSON)
    (user : User) (duration : timedelta) : result OutputWriterJSON :=
  record <- OutputWriterJSON__user_duration_to_object user duration ;;
  Ok (mkOutputWriterJSON (OutputWriterJSON__fd self)
        (OutputWriterJSON__array self ++ [record])).

(** [self._fd.write(json.dumps(self._array, indent=3))]: the text is built
    before it is written, so an array that cannot be encoded writes
    nothing. *)
Definition OutputWriterJSON___exit__ (self : OutputWriterJSON)
  : result OutputWriterJSON :=
  items <- array_to_json (OutputWriterJSON__array self) ;;
  Ok (mkOutputWriterJSON
        (OutputWriterJSON__fd self ++ [json_dumps (JArray items) 3])
        (OutputWriterJSON__array self)).

Global Instance OutputWriterJSON_writer : OutputWriter OutputWriterJSON :=
  {| add_user_duration := OutputWriterJSON_add_user_duration |}.

(** [with open_output_writer_json(fd) as writer: body(writer)]: [__exit__]
    runs however the body ended and returns [None], so an exception of the
    body goes on after it; the file and the way the statement ended are
    returned. *)
Definition with_OutputWriterJSON (fd : list string)
    (body : OutputWriterJSON → OutputWriterJSON * result unit)
  : list string * result unit :=
  let '(writer, r) := body (OutputWriterJSON___init__ fd) in
  match OutputWriterJSON___exit__ writer with
  | Ok writer' => (OutputWriterJSON__fd writer', r)
  | Raise e => (OutputWriterJSON__fd writer, Raise e)
  end.

(** A [dict] keyed by [User]: the entries in insertion order, each with the
    hash its key had when inserted. *)
Definition user_dict : Type := list (Z * User * timedelta).

(** [d[key] = value] once [hash(key)] is known: the entry whose hash is [h]
    and whose key equals [key] gets the new value and keeps its key;
    without one a new entry is added at the end. *)
Fixpoint dict_setitem (h : Z) (key : User) (value : timedelta)
    (d : user_dict) : result user_dict :=
  match d with
  | [] => Ok [(h, key, value)]
  | (h', key', value') :: rest =>
      if (h' =? h)%Z then
        same <- User___eq__ key' key ;;
        if same then Ok ((h', key', value) :: rest)
        else rest' <- dict_setitem h key value rest ;;
             Ok ((h', key', value') :: rest')
      else
        rest' <- dict_setitem h key value rest ;;
        Ok ((h', key', value') :: rest')
  end.

(** The figure is drawn by matplotlib in [__exit__]; only the table it is
    drawn from is modelled. *)
Record PlotBuilder : Type := mkPlotBuilder {
  PlotBuilder__duration_by_user : user_dict
}.

Definition PlotBuilder___init__ : PlotBuilder := mkPlotBuilder [].

Section Plot.
Context {R : Runtime}.

Definition PlotBuilder_add_user_duration (self : PlotBuilder)
    (user : User) (duration : timedelta) : result PlotBuilder :=
  h <- User___hash__ user ;;
  d <- dict_setitem h user duration (PlotBuilder__duration_by_user self) ;;
  Ok (mkPlotBuilder d).

Global Instance PlotBuilder_writer : OutputWriter PlotBuilder :=
  {| add_user_duration := PlotBuilder_add_user_duration |}.

(** ['{}\n{}'.format(user.get_first_name(), user.get_last_name())] *)
Definition PlotBuilder__format_user (user : User) : result string :=
  first <- User_get_first_name user ;;
  last <- User_get_last_name user ;;
  Ok (py_str first +:+ String "010" (py_str last)).

(** The bar labels, one per key. *)
Definition PlotBuilder__get_users (self : PlotBuilder)
  : list (result string) :=
  map (fun e => PlotBuilder__format_user e.1.2)
      (PlotBuilder__duration_by_user self).
End Plot.

(** [self._duration_by_user.keys()] *)
Definition PlotBuilder_keys (self : PlotBuilder) : list User :=
  map (fun e => e.1.2) (PlotBuilder__duration_by_user self).

(** *** The CSV writer, the output formats and the bar chart *)

Inductive OutputFormat : Type :=
| CSV
| JSON
| IMG.

(** [OutputFormat.__str__]: the member's value. *)
Definition OutputFormat_str (fmt : OutputFormat) : string :=
  match fmt with
  | CSV => "csv"
  | JSON => "json"
  | IMG => "img"
  end.

(** [OutputFormat(s)]: the member whose value is [s]; [ValueError] when
    there is none. *)
Definition OutputFormat_of_value (s : string) : result OutputFormat :=
  if String.eqb s "csv" then Ok CSV
  else if String.eqb s "json" then Ok JSON
  else if String.eqb s "img" then Ok IMG
  else Raise ValueError.

(** [output_format], the [type] of [--output-format]: the [ValueError] of
    the lookup is answered with an [ArgumentTypeError] without a message. *)
Definition output_format (s : string) : result OutputFormat :=
  match OutputFormat_of_value s with
  | Ok fmt => Ok fmt
  | Raise ValueError => Raise (ArgumentTypeError EmptyString)
  | Raise e => Raise e
  end.

(** [csv.writer(fd, lineterminator='\n')] is the list of the rows handed to
    its [writerow], oldest first; the text the [csv] module makes of a row
    is outside the model. *)
Record OutputWriterCSV : Type := mkOutputWriterCSV {
  OutputWriterCSV__writer : list (list pyval)
}.

Definition OutputWriterCSV___init__ (fd : list (list pyval))
  : OutputWriterCSV :=
  mkOutputWriterCSV fd.

(** [for field in _USER_FIELDS: row.append(user[field])] *)
Fixpoint row_user_fields (fields : list UserField) (user : User)
    (row : list pyval) : result (list pyval) :=
  match fields with
  | [] => Ok row
  | field :: rest =>
      v <- User___getitem__ user field ;;
      row_user_fields rest user (row ++ [v])
  end.

Definition OutputWriterCSV__user_duration_to_row
    (user : User) (duration : timedelta) : result (list pyval) :=
  row <- row_user_fields _USER_FIELDS user [] ;;
  Ok (row ++ [VStr (timedelta_str duration)]).

Definition OutputWriterCSV__write_row (self : OutputWriterCSV)
    (row : list pyval) : OutputWriterCSV :=
  mkOutputWriterCSV (OutputWriterCSV__writer self ++ [row]).

Definition OutputWriterCSV_add_user_duration (self : OutputWriterCSV)
    (user : User) (duration : timedelta) : result OutputWriterCSV :=
  row <- OutputWriterCSV__user_duration_to_row user duration ;;
  Ok (OutputWriterCSV__write_row self row).

(** [__exit__] is [pass]. *)
Definition OutputWriterCSV___exit__ (self : OutputWriterCSV)
  : OutputWriterCSV := self.

Global Instance OutputWriterCSV_writer : OutputWriter OutputWriterCSV :=
  {| add_user_duration := OutputWriterCSV_add_user_duration |}.

(** [with open_output_writer_csv(fd) as writer: body(writer)] *)
Definition with_OutputWriterCSV (fd : list (list pyval))
    (body : OutputWriterCSV → OutputWriterCSV * result unit)
  : list (list pyval) * result unit :=
  let '(writer, r) := body (OutputWriterCSV___init__ fd) in
  (OutputWriterCSV__writer (OutputWriterCSV___exit__ writer), r).

(** [_BAR_HEIGHT = 1.]; the offsets and limits computed from it are whole
    numbers, kept as integers here. *)
Definition BarChartBuilder__BAR_HEIGHT : Z := 1.

(** What [plot_bars] sets on the figure and its bar axis: the height of the
    figure in inches ([None] while it is matplotlib's default), the ticks
    and their labels, the limits, and whether tick labels are drawn. *)
Record BarChartBuilder : Type := mkBarChartBuilder {
  BarChartBuilder_height : option Z;
  BarChartBuilder_bar_ticks : list Z;
  BarChartBuilder_bar_ticklabels : list string;
  BarChartBuilder_bar_limits : option (Z * Z);
  BarChartBuilder_labelleft : bool
}.

Definition BarChartBuilder___init__ : BarChartBuilder :=
  mkBarChartBuilder None [] [] None true.

Definition BarChartBuilder_set_height (self : BarChartBuilder) (inches : Z)
  : BarChartBuilder :=
  mkBarChartBuilder (Some inches)
    (BarChartBuilder_bar_ticks self) (BarChartBuilder_bar_ticklabels self)
    (BarChartBuilder_bar_limits self) (BarChartBuilder_labelleft self).

Definition BarChartBuilder_set_bar_axis_limits (self : BarChartBuilder)
    (start end_ : Z) : BarChartBuilder :=
  mkBarChartBuilder (BarChartBuilder_height self)
    (BarChartBuilder_bar_ticks self) (BarChartBuilder_bar_ticklabels self)
    (Some (start, end_)) (BarChartBuilder_labelleft self).

(** [np.arange(numof_bars) * 2 * self._BAR_HEIGHT + self._BAR_HEIGHT] *)
Definition bar_offsets (numof_bars : nat) : list Z :=
  map (fun i => (Z.of_nat i * 2 * BarChartBuilder__BAR_HEIGHT
                 + BarChartBuilder__BAR_HEIGHT)%Z)
      (seq 0 numof_bars).

(** [plot_bars]: the chart afterwards and the arguments of the
    [self._ax.barh(bar_offsets, values, align='center', height=_BAR_HEIGHT)]
    call whose bars it returns, [None] when it returns the empty list
    without drawing. *)
Definition BarChartBuilder_plot_bars {V : Type} (self : BarChartBuilder)
    (bar_labels : list string) (values : list V)
  : BarChartBuilder * option (list Z * list V) :=
  let numof_bars := length bar_labels in
  if (numof_bars =? 0)%nat then
    let self := BarChartBuilder_set_height self 1 in
    (mkBarChartBuilder (BarChartBuilder_height self)
       (BarChartBuilder_bar_ticks self) (BarChartBuilder_bar_ticklabels self)
       (BarChartBuilder_bar_limits self) false,
     None)
  else
    let self := BarChartBuilder_set_height self (Z.of_nat numof_bars) in
    let offsets := bar_offsets numof_bars in
    let bar_axis_min := 0%Z in
    let bar_axis_max :=
      (2 * BarChartBuilder__BAR_HEIGHT * Z.of_nat numof_bars)%Z in
    let self :=
      mkBarChartBuilder (BarChartBuilder_height self) offsets bar_labels
        (BarChartBuilder_bar_limits self) (BarChartBuilder_labelleft self) in
    (BarChartBuilder_set_bar_axis_limits self bar_axis_min bar_axis_max,
     Some (offsets, values)).

(** ** Notions used by the statements *)

Section Notions.
Context {R : Runtime}.

(** What one position of a cycle does: the stored user afterwards and what
    was logged. This is [update_status] without the indexing. *)
Definition column_step (old new : User) : User * Log unit :=
  match User_is_online old with
  | Raise e => (old, lift (Raise e))
  | Ok a =>
      match User_is_online new with
      | Raise e => (old, lift (Raise e))
      | Ok b =>
          if py_ne a b then (new, print_status_update new)
          else (old, log_ret tt)
      end
  end.

(** A cycle as a walk down both lists at once. *)
Fixpoint update_zip (updated_users users : list User)
  : list User * Log unit :=
  match updated_users, users with
  | [], _ => (users, log_ret tt)
  | _ :: _, [] => ([], lift (Raise IndexError))
  | new :: updated', old :: users' =>
      match column_step old new with
      | (u, (l, Ok _)) =>
          let '(us, (l', r)) := update_zip updated' users' in
          (u :: us, (l ++ l', r))
      | (u, (l, Raise e)) => (u :: users', (l, Raise e))
      end
  end.


End Notions.

(** The online flags of [old] and [new] are both there and equal. *)
Definition same_flag (old new : User) : Prop :=
  ∃ a b, User_is_online old = Ok a ∧ User_is_online new = Ok b
         ∧ py_eq a b = true.

(** Acquisitions that all return the users in one order: [histories] has
    one entry per position, the snapshots that position gets at acquisition
    0, 1, 2, ...; the list holds acquisitions [first] to
    [first + count - 1]. *)
Definition acquisitions (histories : list (nat → User)) (first count : nat)
  : list (result (list User)) :=
  map (fun t => Ok (map (fun h => h t) histories)) (seq first count).

(** The stored [UID] is an [int] and the stored [ONLINE] a [bool]. *)
Definition fields_parsed (user : User) : Prop :=
  (∀ v, od_get UID (User__fields user) = Some v → ∃ z, v = VInt z)
  ∧ (∀ v, od_get ONLINE (User__fields user) = Some v → ∃ b, v = VBool b).

(** The same, of every entry of the underlying dictionary. *)
Definition entries_parsed (d : list (UserField * pyval)) : Prop :=
  ∀ field v, In (field, v) d →
    (field = UID → ∃ z, v = VInt z) ∧ (field = ONLINE → ∃ b, v = VBool b).

(** [record] is the JSON object for one [add_user_duration] call: the four
    identity fields of the user, then the duration as a string. *)
Definition json_record (call : User * timedelta) (record : json) : Prop :=
  ∃ uid first last screen j1 j2 j3 j4,
    User___getitem__ call.1 UID = Ok uid ∧ to_json uid = Ok j1
    ∧ User___getitem__ call.1 FIRST_NAME = Ok first ∧ to_json first = Ok j2
    ∧ User___getitem__ call.1 LAST_NAME = Ok last ∧ to_json last = Ok j3
    ∧ User___getitem__ call.1 SCREEN_NAME = Ok screen ∧ to_json screen = Ok j4
    ∧ record = JObject [("uid", j1); ("first_name", j2); ("last_name", j3);
                        ("screen_name", j4);
                        ("duration", JStr (timedelta_str call.2))].

(** No key of the table equals a later one. *)
Fixpoint keys_distinct (d : user_dict) : Prop :=
  match d with
  | [] => True
  | (_, key, _) :: rest =>
      Forall (fun e => User___eq__ key e.1.2 = Ok false) rest
      ∧ keys_distinct rest
  end.

(** Every entry carries the hash of its key. *)
Definition hashes_cached {R : Runtime} (d : user_dict) : Prop :=
  Forall (fun e => User___hash__ e.1.2 = Ok e.1.1) d.

(** ** Sample data *)

(** A runtime to evaluate the model with: a [LastSeen] is built from the
    [time] and [platform] members and printed as its time. *)
Definition sample_runtime : Runtime := {|
  str_hash := fun s => Z.of_nat (String.length s);
  none_hash := 0%Z;
  LastSeen_from_api_response := fun m =>
    match od_get "time" m with
    | Some t => Ok (mkLastSeen t (od_get "platform" m))
    | None => Raise (KeyError "'time'")
    end;
  LastSeen_str := fun l => pretty (ls_time l);
  Mapping_repr := fun _ => "{...}"
|}.

Definition sample_user (uid : Z) (first last : string) (online : bool) : User :=
  mkUser [(UID, VInt uid); (FIRST_NAME, VStr first); (LAST_NAME, VStr last);
          (ONLINE, VBool online);
          (LAST_SEEN, VLastSeen (mkLastSeen 1450000000 (Some 7%Z)))].

(** A user as the log reader yields it: the identity fields only. *)
Definition sample_profile (uid : Z) (first last screen : string) : User :=
  mkUser [(UID, VInt uid); (FIRST_NAME, VStr first); (LAST_NAME, VStr last);
          (SCREEN_NAME, VStr screen)].

Definition anna (online : bool) : User := sample_user 1 "Anna" "Orlova" online.
Definition boris (online : bool) : User := sample_user 2 "Boris" "Petrov" online.

(** Anna goes online between two acquisitions that list her first. *)
Definition run_same_order : list (list User) :=
  [[anna false; boris true]; [anna true; boris true]].

(** The same snapshots, the second acquisition listing Boris first. *)
Definition run_swapped : list (list User) :=
  [[anna false; boris true]; [boris true; anna true]].

Definition anna_history (t : nat) : User :=
  match t with O => anna false | _ => anna true end.

Definition boris_history (t : nat) : User := boris true.

(** ** Further notions and sample data *)

(** Both flags are there and differ, the test of the loop. *)
Definition flags_differ (old new : User) : bool :=
  match User_is_online old, User_is_online new with
  | Ok a, Ok b => py_ne a b
  | _, _ => false
  end.

(** [new] may take the place of [old] without the cycle raising: the flags
    are equal, or the new flag is true and the new user can be named. *)
Definition quiet_or_online {R : Runtime} (old new : User) : Prop :=
  same_flag old new
  ∨ ∃ a b name,
      User_is_online old = Ok a ∧ User_is_online new = Ok b
      ∧ py_ne a b = true ∧ py_bool b = true ∧ format_user new = Ok name.

(** The stored users after a cycle that did not raise. *)
Definition stored_after (users updated_users : list User) : list User :=
  zip_with (fun old new => if flags_differ old new then new else old)
    users updated_users.

(** The messages of such a cycle: one per changed position, in order. *)
Definition went_online_messages {R : Runtime} (users updated_users : list User)
  : list string :=
  flat_map
    (fun p =>
       if flags_differ p.1 p.2 then
         match format_user_went_online p.2 with
         | Ok msg => [msg]
         | Raise _ => []
         end
       else [])
    (zip users updated_users).

(** The entry an API response yields for [field], if any. *)
Definition response_entry {R : Runtime} (source : list (string * pyval))
    (field : UserField) : option (UserField * pyval) :=
  match od_get (UserField_str field) source with
  | Some v =>
      match User_parse field v with
      | Ok w => Some (field, w)
      | Raise _ => None
      end
  | None => None
  end.

(** [row] is the CSV row of one [add_user_duration] call. *)
Definition csv_row (call : User * timedelta) (row : list pyval) : Prop :=
  OutputWriterCSV__user_duration_to_row call.1 call.2 = Ok row.

(** A user the API returned without names. *)
Definition nameless (uid : Z) (online : bool) : User :=
  mkUser [(UID, VInt uid); (ONLINE, VBool online)].

(** An offline user the API returned without a last-seen hint. *)
Definition unseen : User :=
  mkUser [(UID, VInt 3); (FIRST_NAME, VStr "Vera"); (LAST_NAME, VStr EmptyString);
          (ONLINE, VBool false)].

(** * Properties *)

(** ** Ordered dictionaries *)

Section OrderedDictFacts.
Context {K V : Type} `{EqDecision K}.
Implicit Types (k : K) (v : V) (d : list (K * V)).

Lemma od_get_set_eq k v d : od_get k (od_set k v d) = Some v.
Proof.
  induction d as [|[k' v'] d IH]; simpl.
  - by rewrite decide_True.
  - destruct (decide (k' = k)) as [->|Hne]; simpl.
    + by rewrite decide_True.
    + by rewrite decide_False.
Qed.

Lemma od_get_set_ne k k' v d :
  k ≠ k' → od_get k' (od_set k v d) = od_get k' d.
Proof.
  intros Hne. induction d as [|[k0 v0] d IH]; simpl.
  - by rewrite decide_False.
  - destruct (decide (k0 = k)) as [->|Hk0]; simpl.
    + by rewrite !decide_False.
    + destruct (decide (k0 = k')); [done | apply IH].
Qed.

Lemma od_get_In k v d : od_get k d = Some v → In (k, v) d.
Proof.
  induction d as [|[k' v'] d IH]; simpl; [done|].
  destruct (decide (k' = k)) as [->|Hne].
  - intros [= ->]. by left.
  - intros Hget. right. by apply IH.
Qed.

Lemma od_set_In k v d e : In e (od_set k v d) → e = (k, v) ∨ In e d.
Proof.
  induction d as [|[k' v'] d IH]; simpl.
  - intros [<-|[]]. by left.
  - destruct (decide (k' = k)) as [->|Hne]; simpl.
    + intros [<-|Hin]; [by left | by right; right].
    + intros [<-|Hin]; [by right; left|].
      destruct (IH Hin) as [->|Hd]; [by left | by right; right].
Qed.

Lemma od_del_In k d e : In e (od_del k d) → In e d.
Proof.
  induction d as [|[k' v'] d IH]; simpl; [done|].
  destruct (decide (k' = k)) as [->|Hne]; simpl.
  - intros Hin. by right.
  - intros [<-|Hin]; [by left | right; by apply IH].
Qed.

(** Assigning to an absent key adds the entry at the end. *)
Lemma od_set_fresh k v d : od_get k d = None → od_set k v d = d ++ [(k, v)].
Proof.
  induction d as [|[k' v'] d IH]; simpl; [done|].
  destruct (decide (k' = k)); [done|].
  intros Hget. by rewrite IH.
Qed.

Lemma od_get_app_r k d d' :
  od_get k d = None → od_get k (d ++ d') = od_get k d'.
Proof.
  induction d as [|[k' v'] d IH]; simpl; [done|].
  destruct (decide (k' = k)); [done | apply IH].
Qed.
End OrderedDictFacts.

(** ** The result and log monads *)

Lemma result_bind_Ok {A B} (m : result A) (k : A → result B) b :
  result_bind m k = Ok b ↔ ∃ a, m = Ok a ∧ k a = Ok b.
Proof.
  destruct m as [a|e]; simpl.
  - split; [eauto | by intros (a' & [= ->] & Hk)].
  - split; [done | by intros (a' & [=] & _)].
Qed.

Lemma log_bind_lift_Ok {A B} (a : A) (k : A → Log B) :
  log_bind (lift (Ok a)) k = k a.
Proof. unfold log_bind, lift. by destruct (k a). Qed.

Lemma log_bind_lift_Raise {A B} e (k : A → Log B) :
  log_bind (lift (Raise e)) k = lift (Raise e).
Proof. done. Qed.

(** ** [vk/user.py] *)

Section UserFacts.
Context {R : Runtime}.

Lemma User_parse_parsed field value v :
  User_parse field value = Ok v →
  (field = UID → ∃ z, v = VInt z) ∧ (field = ONLINE → ∃ b, v = VBool b).
Proof.
  destruct field; simpl; intros Hparse; split; try discriminate; intros _.
  - apply result_bind_Ok in Hparse as (z & _ & [= <-]). by exists z.
  - apply result_bind_Ok in Hparse as (b & _ & [= <-]). by exists b.
Qed.

Lemma entries_parsed_fields user :
  entries_parsed (User__fields user) → fields_parsed user.
Proof.
  intros Hall. split; intros v Hget%od_get_In; by apply (Hall _ _ Hget).
Qed.

Lemma User___setitem___parsed self field value self' :
  entries_parsed (User__fields self) →
  User___setitem__ self field value = Ok self' →
  entries_parsed (User__fields self').
Proof.
  intros Hall Hset.
  apply result_bind_Ok in Hset as (v & Hparse & [= <-]); simpl.
  intros f w [[= -> ->]|Hin]%od_set_In.
  - by apply (User_parse_parsed _ value).
  - by apply Hall.
Qed.

Lemma User___delitem___parsed self field self' :
  entries_parsed (User__fields self) →
  User___delitem__ self field = Ok self' →
  entries_parsed (User__fields self').
Proof.
  intros Hall. unfold User___delitem__.
  destruct (od_contains field (User__fields self)); [|done].
  intros [= <-]; simpl. intros f w Hin%od_del_In. by apply Hall.
Qed.

Lemma mutate_parsed self m self' :
  entries_parsed (User__fields self) →
  mutate self m = Ok self' →
  entries_parsed (User__fields self').
Proof.
  destruct m as [field value|field]; simpl.
  - apply User___setitem___parsed.
  - apply User___delitem___parsed.
Qed.

(** A user whose entries are parsed keeps them parsed whatever is assigned
    or deleted next. *)
Lemma mutate_all_parsed ms : ∀ self,
  entries_parsed (User__fields self) →
  entries_parsed (User__fields (mutate_all self ms)).
Proof.
  induction ms as [|m ms IH]; intros self Hall; simpl; [done|].
  destruct (mutate self m) as [self'|e] eqn:Hm.
  - apply IH. by apply (mutate_parsed self m).
  - by apply IH.
Qed.

Lemma from_api_response_loop_parsed members source : ∀ instance user,
  entries_parsed (User__fields instance) →
  from_api_response_loop members source instance = Ok user →
  entries_parsed (User__fields user).
Proof.
  induction members as [|field rest IH]; intros instance user Hall; simpl.
  - by intros [= <-].
  - destruct (od_get (UserField_str field) source) as [v|]; [|by apply IH].
    intros (instance' & Hset & Hloop)%result_bind_Ok.
    apply (IH instance'); [|done].
    by apply (User___setitem___parsed instance field v).
Qed.

(** Users built from an API response have a parsed [UID] and [ONLINE]. *)
Lemma User_from_api_response_parsed source user :
  User_from_api_response source = Ok user → fields_parsed user.
Proof.
  intros Hfrom. apply entries_parsed_fields.
  eapply from_api_response_loop_parsed; [|exact Hfrom].
  by intros field v [].
Qed.

(** C9. Every assignment to a [User] goes through [User.parse]: after any
    sequence of assignments and deletions on a new [User] the stored
    [UID] is an [int] and the stored [ONLINE] a [bool]. Assigning
    [ONLINE] from a string stores [True] for ["True"], [False] for
    ["False"] and raises [ValueError] for every other string; any other
    value is stored as its [bool]. *)
Theorem User_fields_stay_parsed :
  (∀ ms, fields_parsed (mutate_all (User___init__ None) ms))
  ∧ (∀ self s,
       User___setitem__ self ONLINE (VStr s) =
         if String.eqb s "True"
         then Ok (mkUser (od_set ONLINE (VBool true) (User__fields self)))
         else if String.eqb s "False"
         then Ok (mkUser (od_set ONLINE (VBool false) (User__fields self)))
         else Raise ValueError)
  ∧ (∀ self x, (∀ s, x ≠ VStr s) →
       User___setitem__ self ONLINE x =
         Ok (mkUser (od_set ONLINE (VBool (py_bool x)) (User__fields self)))).
Proof.
  split; [|split].
  - intros ms. apply entries_parsed_fields, mutate_all_parsed.
    by intros field v [].
  - intros self s. unfold User___setitem__, User_parse, _parse_online_flag.
    rewrite (String.eqb_sym "True" s), (String.eqb_sym "False" s).
    by destruct (String.eqb s "True"), (String.eqb s "False").
  - intros self x Hx. unfold User___setitem__; simpl.
    destruct x; try done. by destruct (Hx s).
Qed.

(** C10. For a user with an integer UID, [get_screen_name] returns the
    stored screen name when there is one and otherwise ["id"] followed by
    the UID in decimal; it does not raise. *)
Theorem User_get_screen_name_spec (self : User) (z : Z) :
  User_get_uid self = Ok (VInt z) →
  User_get_screen_name self =
    Ok (match od_get SCREEN_NAME (User__fields self) with
        | Some name => name
        | None => VStr ("id" +:+ pretty z)
        end).
Proof.
  intros Huid.
  unfold User_get_screen_name, User_has_screen_name, User___contains__,
    User___getitem__.
  destruct (od_get SCREEN_NAME (User__fields self)) as [name|]; [done|].
  by rewrite Huid.
Qed.

(** With any stored UID the fallback is ["id"] followed by [str] of it. *)
Lemma User_get_screen_name_missing (self : User) (uid : pyval) :
  User_get_uid self = Ok uid →
  User_has_screen_name self = false →
  User_get_screen_name self = Ok (VStr ("id" +:+ py_str uid)).
Proof.
  intros Huid Hno. unfold User_get_screen_name. by rewrite Hno, Huid.
Qed.

(** Equal values have equal hashes, or are both unhashable. *)
Lemma py_eq_hash a b : py_eq a b = true → py_hash a = py_hash b.
Proof.
  destruct a as [|a|a|a|a|a], b as [|b|b|b|b|b]; simpl; try done.
  - intros ->%Bool.eqb_prop. done.
  - intros <-%Z.eqb_eq. done.
  - intros <-%Z.eqb_eq. done.
  - intros ->%Z.eqb_eq. done.
  - intros ->%String.eqb_eq. done.
Qed.

Lemma User___eq___uid u v a b :
  User_get_uid u = Ok a → User_get_uid v = Ok b →
  User___eq__ u v = Ok (py_eq a b).
Proof. intros Hu Hv. unfold User___eq__. by rewrite Hu, Hv. Qed.

Lemma User___eq___hash u v :
  User___eq__ u v = Ok true → User___hash__ u = User___hash__ v.
Proof.
  intros (a & Hu & (b & Hv & [= Heq])%result_bind_Ok)%result_bind_Ok.
  unfold User___hash__. rewrite Hu, Hv; simpl. by apply py_eq_hash.
Qed.
End UserFacts.

(** ** The built-ins on a few inputs *)

Example int_of_str_plain : int_of_str "5" = Ok 5%Z.
Proof. reflexivity. Qed.

Example int_of_str_spaces_sign : int_of_str "  -42 " = Ok (-42)%Z.
Proof. reflexivity. Qed.

Example int_of_str_underscore : int_of_str "1_000" = Ok 1000%Z.
Proof. reflexivity. Qed.

Example int_of_str_double_underscore : int_of_str "1__0" = Raise ValueError.
Proof. reflexivity. Qed.

Example int_of_str_empty : int_of_str EmptyString = Raise ValueError.
Proof. reflexivity. Qed.

Example int_of_str_word : int_of_str "five" = Raise ValueError.
Proof. reflexivity. Qed.

Example int_of_str_separator : int_of_str (String "028" "5") = Raise ValueError.
Proof. reflexivity. Qed.

Example int_of_str_separator_after :
  int_of_str (String "5" (String "031" EmptyString)) = Raise ValueError.
Proof. reflexivity. Qed.

Example int_of_str_no_break_space : int_of_str (String "160" "5") = Ok 5%Z.
Proof. reflexivity. Qed.

Example int_of_str_next_line : int_of_str (String "133" "5") = Ok 5%Z.
Proof. reflexivity. Qed.

Example int_of_str_vertical_tab : int_of_str (String "011" "5") = Ok 5%Z.
Proof. reflexivity. Qed.

Example int_hash_minus_one : int_hash (-1) = (-2)%Z.
Proof. reflexivity. Qed.

Example timedelta_str_short : timedelta_str (mkTimedelta 0 75 0) = "0:01:15".
Proof. reflexivity. Qed.

Example timedelta_str_days :
  timedelta_str (mkTimedelta (-1) 86399 500) = "-1 day, 23:59:59.000500".
Proof. reflexivity. Qed.

Example json_dumps_empty : json_dumps (JArray []) 3 = "[]".
Proof. reflexivity. Qed.

(** ** [track_status.py]: the poll interval *)

(** C6. [parse_timeout] returns the integer its string argument denotes
    exactly when that integer is at least 1, and raises [ArgumentTypeError]
    exactly when the string denotes an integer below 1. On the command
    line the flag gives that integer in the first case and ends the
    process with status 2 otherwise; the interval is 5 when the flag is
    left out. *)
Theorem parse_timeout_spec (s : string) :
  (∀ n, parse_timeout (VStr s) = Ok n ↔ int_of_str s = Ok n ∧ (1 ≤ n)%Z)
  ∧ (∀ msg, parse_timeout (VStr s) = Raise (ArgumentTypeError msg) ↔
       (∃ n, int_of_str s = Ok n ∧ (n < 1)%Z)
       ∧ msg = "please specify a positive number of seconds as refresh timeout")
  ∧ (∀ n, timeout_argument (Some s) = Ok n ↔
       int_of_str s = Ok n ∧ (1 ≤ n)%Z)
  ∧ ((∀ n, int_of_str s = Ok n → (n < 1)%Z) →
     timeout_argument (Some s) = Raise (SystemExit 2))
  ∧ timeout_argument None = Ok 5%Z.
Proof.
  assert (Hint : ∀ e, int_of_str s = Raise e → e = ValueError).
  { intros e. unfold int_of_str.
    destruct (rstrip (lstrip s)) as [|c t]; simpl.
    - by intros [= <-].
    - repeat case_match; by intros [= <-]. }
  split; [|split; [|split; [|split; [|reflexivity]]]].
  - intros n. unfold parse_timeout; simpl.
    destruct (int_of_str s) as [m|e]; simpl.
    + destruct (Z.ltb_spec m 1) as [Hlt|Hge].
      * split; [done|]. intros [[= ->] Hn]. lia.
      * split; [by intros [= ->] | by intros [[= ->] _]].
    + split; [done | by intros [[=] _]].
  - intros msg. unfold parse_timeout; simpl.
    destruct (int_of_str s) as [m|e] eqn:Hs; simpl.
    + destruct (Z.ltb_spec m 1) as [Hlt|Hge].
      * split; [|by intros [_ ->]].
        intros [= <-]. split; [|done]. by exists m.
      * split; [done|]. intros [(n & [= <-] & Hn) _]. lia.
    + split.
      * intros [= ->]. by specialize (Hint _ eq_refl).
      * by intros [(n & [=] & _) _].
  - intros n. unfold timeout_argument, parse_timeout; simpl.
    destruct (int_of_str s) as [m|e] eqn:Hs; simpl.
    + destruct (Z.ltb_spec m 1) as [Hlt|Hge].
      * split; [done|]. intros [[= ->] Hn]. lia.
      * split; [by intros [= ->] | by intros [[= ->] _]].
    + rewrite (Hint e eq_refl). split; [done | by intros [[=] _]].
  - intros Hlow. unfold timeout_argument, parse_timeout; simpl.
    destruct (int_of_str s) as [m|e] eqn:Hs; simpl.
    + specialize (Hlow m eq_refl).
      destruct (Z.ltb_spec m 1) as [Hlt|Hge]; [done | lia].
    + by rewrite (Hint e eq_refl).
Qed.

(** ** [track_status.py]: one cycle *)

Section CycleFacts.
Context {R : Runtime}.

Lemma update_status_column pre new rest upre old urest :
  length pre = length upre →
  update_status (pre ++ new :: rest) (length upre) (upre ++ old :: urest) =
    let '(u, out) := column_step old new in (upre ++ u :: urest, out).
Proof.
  intros Hlen. unfold update_status, column_step.
  rewrite (list_lookup_middle upre urest old) by done.
  rewrite (list_lookup_middle pre rest new) by done.
  destruct (User_is_online old) as [a|e]; [|done].
  destruct (User_is_online new) as [b|e]; [|done].
  destruct (py_ne a b); [|done].
  replace (length upre) with (length upre + 0) by lia.
  by rewrite insert_app_r.
Qed.

Lemma update_status_past_end pre rest upre :
  length pre = length upre →
  update_status (pre ++ rest) (length upre) upre =
    (upre, lift (Raise IndexError)).
Proof.
  intros Hlen. unfold update_status.
  by rewrite (lookup_ge_None_2 upre (length upre)) by lia.
Qed.

Lemma for_range_zip rest : ∀ pre upre urest,
  length pre = length upre →
  for_range (seq (length upre) (length rest)) (pre ++ rest) (upre ++ urest) =
    let '(us, out) := update_zip rest urest in (upre ++ us, out).
Proof.
  induction rest as [|new rest IH]; intros pre upre urest Hlen; simpl.
  - done.
  - destruct urest as [|old urest].
    + rewrite app_nil_r, update_status_past_end by done. done.
    + rewrite update_status_column by done.
      destruct (column_step old new) as [u [l [[]|e]]]; [|reflexivity].
      specialize (IH (pre ++ [new]) (upre ++ [u]) urest).
      rewrite !length_app in IH; simpl in IH.
      rewrite <- !app_assoc in IH; simpl in IH.
      replace (length upre + 1) with (S (length upre)) in IH by lia.
      rewrite IH by lia.
      destruct (update_zip rest urest) as [us [l' r]].
      by rewrite <- app_assoc.
Qed.

(** The indexed loop of the source walks both lists at once. *)
Lemma update_all_zip updated_users users :
  update_all updated_users users = update_zip updated_users users.
Proof.
  unfold update_all.
  pose proof (for_range_zip updated_users [] [] users eq_refl) as Hzip.
  simpl in Hzip. rewrite Hzip.
  by destruct (update_zip updated_users users) as [us out].
Qed.

Lemma column_step_same_flag old new :
  same_flag old new → column_step old new = (old, log_ret tt).
Proof.
  intros (a & b & Ha & Hb & Heq). unfold column_step, py_ne.
  by rewrite Ha, Hb, Heq.
Qed.






(** C5. In a cycle, a position whose new flag equals the stored one keeps
    its stored user, and the cycle logs and ends exactly as it would
    without that position. *)
Theorem unchanged_user_is_framed (i : nat) : ∀ users updated_users old new a b,
  users !! i = Some old →
  updated_users !! i = Some new →
  User_is_online old = Ok a →
  User_is_online new = Ok b →
  py_ne a b = false →
  ∀ users' out,
    update_all updated_users users = (users', out) →
    users' !! i = Some old
    ∧ update_all (delete i updated_users) (delete i users) =
        (delete i users', out).
Proof.
  setoid_rewrite update_all_zip.
  induction i as [|i IH];
    intros [|u0 users] [|n0 updated_users] old new a b Hold Hnew Ha Hb Hne
      users' out; try done; simpl in Hold, Hnew.
  - injection Hold as ->. injection Hnew as ->. simpl.
    unfold column_step. rewrite Ha, Hb, Hne. simpl.
    destruct (update_zip updated_users users) as [us [l r]].
    by intros [= <- <-].
  - simpl. destruct (column_step u0 n0) as [u [l [[]|e]]].
    + destruct (update_zip updated_users users) as [us [l' r]] eqn:Hzip.
      intros [= <- <-].
      destruct (IH users updated_users old new a b Hold Hnew Ha Hb Hne
                  us (l', r) Hzip) as [Hus Hdel].
      split; [done|]. simpl. by rewrite Hdel.
    + by intros [= <- <-].
Qed.

(** C4. When the loop is left by [KeyboardInterrupt] the process ends with
    status 0; when it is left by an [Exception] the process ends with
    status 1. *)
Theorem main_exit_status (api : list (result (list User)))
    (l : list string) (e : exn) :
  loop_update_status api = (l, Raised e) →
  (e = KeyboardInterrupt → (main api).2 = Some 0%Z)
  ∧ (is_Exception e = true → (main api).2 = Some 1%Z).
Proof.
  intros Hloop. unfold main. rewrite Hloop. split.
  - by intros ->.
  - by destruct e.
Qed.
End CycleFacts.

(** ** [track_status.py]: going offline *)

Section OfflineFacts.
Context {R : Runtime}.

(** Reporting a user whose flag is false raises before anything is
    logged. *)
Lemma print_status_update_offline user v :
  User_is_online user = Ok v → py_bool v = false →
  print_status_update user =
    ([], Raise (NameError "format_usre_went_offline")).
Proof.
  intros Hv Hfalse. unfold print_status_update.
  by rewrite Hv, log_bind_lift_Ok, Hfalse.
Qed.

(** A cycle in which some position goes from online to offline does not
    complete: it raises, there or at an earlier position. *)
Lemma update_all_offline_raises (i : nat) : ∀ users updated_users old new,
  users !! i = Some old →
  updated_users !! i = Some new →
  User_is_online old = Ok (VBool true) →
  User_is_online new = Ok (VBool false) →
  ∃ users' l e, update_all updated_users users = (users', (l, Raise e)).
Proof.
  setoid_rewrite update_all_zip.
  induction i as [|i IH];
    intros [|u0 users] [|n0 updated_users] old new Hold Hnew Ha Hb;
    try done; simpl in Hold, Hnew.
  - injection Hold as ->. injection Hnew as ->. simpl.
    unfold column_step. rewrite Ha, Hb. simpl.
    rewrite (print_status_update_offline new (VBool false)) by done.
    by eexists _, _, _.
  - simpl. destruct (column_step u0 n0) as [u [l [[]|e]]].
    + destruct (IH users updated_users old new Hold Hnew Ha Hb)
        as (users' & l' & e & ->).
      by eexists _, _, _.
    + by eexists _, _, _.
Qed.
End OfflineFacts.

(** ** [track_status.py]: whole runs *)

Section RunFacts.
Context {R : Runtime}.

Lemma print_all_ok users :
  Forall (fun user => (print_status user).2 = Ok tt) users →
  print_all users =
    (flat_map (fun user => (print_status user).1) users, Ok tt).
Proof.
  induction 1 as [|user users Hok _ IH]; simpl; [done|].
  destruct (print_status user) as [l r]; simpl in *; subst r.
  by rewrite IH.
Qed.

Lemma print_all_ok_inv users : ∀ l,
  print_all users = (l, Ok tt) →
  Forall (fun user => (print_status user).2 = Ok tt) users.
Proof.
  induction users as [|user users IH]; intros l; simpl; [by constructor|].
  destruct (print_status user) as [l0 [[]|e]] eqn:Hp; simpl; [|done].
  destruct (print_all users) as [l1 [[]|e]]; [|done].
  intros _. constructor; [by rewrite Hp | by apply (IH l1)].
Qed.

(** The log and the stored user of one position, when a cycle visits the
    positions of [hs] with [st h] stored and [nw h] fetched. *)
Lemma update_zip_columns_ok {H} (st nw : H → User) (hs : list H) :
  Forall (fun h => (column_step (st h) (nw h)).2.2 = Ok tt) hs →
  update_zip (map nw hs) (map st hs) =
    (map (fun h => (column_step (st h) (nw h)).1) hs,
     (flat_map (fun h => (column_step (st h) (nw h)).2.1) hs, Ok tt)).
Proof.
  induction 1 as [|h hs Hok _ IH]; simpl; [done|].
  destruct (column_step (st h) (nw h)) as [u [l r]]; simpl in *; subst r.
  by rewrite IH.
Qed.

Lemma update_zip_columns_ok_inv {H} (st nw : H → User) (hs : list H) :
  ∀ us l,
    update_zip (map nw hs) (map st hs) = (us, (l, Ok tt)) →
    Forall (fun h => (column_step (st h) (nw h)).2.2 = Ok tt) hs.
Proof.
  induction hs as [|h hs IH]; intros us l; simpl; [by constructor|].
  destruct (column_step (st h) (nw h)) as [u [l0 [[]|e]]] eqn:Hc; simpl;
    [|done].
  destruct (update_zip (map nw hs) (map st hs)) as [us1 [l1 [[]|e]]] eqn:Hz;
    [|done].
  intros _. constructor; [by rewrite Hc | by apply (IH us1 l1)].
Qed.

Lemma acquisitions_S hs first count :
  acquisitions hs first (S count) =
    Ok (map (fun h => h first) hs) :: acquisitions hs (S first) count.
Proof. reflexivity. Qed.

Lemma poll_fixed_order (count : nat) :
  ∀ (first : nat) (st : (nat → User) → User) (hs hs' : list (nat → User))
    (l : list string) (users : list User),
    Permutation hs hs' →
    poll (acquisitions hs first count) (map st hs) = (l, Running users) →
    ∃ l' users',
      poll (acquisitions hs' first count) (map st hs') = (l', Running users')
      ∧ Permutation l l' ∧ Permutation users users'.
Proof.
  induction count as [|count IH]; intros first st hs hs' l users Hperm.
  - simpl. intros [= <- <-]. exists [], (map st hs').
    split; [done|]. split; [done | by apply Permutation_map].
  - rewrite !acquisitions_S. cbn [poll]. rewrite !update_all_zip.
    destruct (update_zip (map (fun h => h first) hs) (map st hs))
      as [us [l1 [[]|e]]] eqn:Hzip; [|done].
    pose proof (update_zip_columns_ok_inv st (fun h => h first) hs _ _ Hzip)
      as Hok.
    rewrite (update_zip_columns_ok st (fun h => h first) hs Hok) in Hzip.
    revert Hzip. intros [= <- <-].
    assert (Hok' : Forall (fun h => (column_step (st h) (h first)).2.2 = Ok tt)
                     hs') by (by rewrite <- Hperm).
    rewrite (update_zip_columns_ok st (fun h => h first) hs' Hok').
    destruct (poll (acquisitions hs (S first) count)
                (map (fun h => (column_step (st h) (h first)).1) hs))
      as [l2 o] eqn:Hpoll.
    intros [= <- ->].
    destruct (IH (S first) (fun h => (column_step (st h) (h first)).1)
                hs hs' l2 users Hperm Hpoll) as (l2' & users' & Hpoll' & Hl & Hu).
    rewrite Hpoll'.
    exists (flat_map (fun h => (column_step (st h) (h first)).2.1) hs' ++ l2'),
      users'.
    split; [done|]. split; [|done].
    apply Permutation_app; [|done]. by apply Permutation_flat_map.
Qed.

(** C3, as the code has it. Positions are compared, not users: when each
    of two runs returns its users in one order at every acquisition, the
    same per-user snapshots in the two runs, and the first run is still
    in its loop, the second logs the same messages up to order and stores
    the same users up to order. *)
Theorem fixed_order_runs_agree (hs hs' : list (nat → User)) (cycles : nat)
    (l : list string) (users : list User) :
  Permutation hs hs' →
  loop_update_status (acquisitions hs 0 (S cycles)) = (l, Running users) →
  ∃ l' users',
    loop_update_status (acquisitions hs' 0 (S cycles)) = (l', Running users')
    ∧ Permutation l l' ∧ Permutation users users'.
Proof.
  intros Hperm. rewrite !acquisitions_S. cbn [loop_update_status].
  destruct (print_all (map (fun h => h 0) hs)) as [l0 [[]|e]] eqn:Hprint;
    [|done].
  pose proof (print_all_ok_inv _ _ Hprint) as Hok.
  rewrite (print_all_ok _ Hok) in Hprint. revert Hprint. intros [= <-].
  assert (Hok' : Forall (fun user => (print_status user).2 = Ok tt)
                   (map (fun h => h 0) hs')).
  { by rewrite <- (Permutation_map (fun h => h 0) Hperm). }
  rewrite (print_all_ok _ Hok').
  destruct (poll (acquisitions hs 1 cycles) (map (fun h => h 0) hs))
    as [l1 o] eqn:Hpoll.
  intros [= <- ->].
  destruct (poll_fixed_order cycles 1 (fun h => h 0) hs hs' l1 users
              Hperm Hpoll) as (l1' & users' & Hpoll' & Hl & Hu).
  rewrite Hpoll'.
  eexists _, users'. split; [done|]. split; [|done].
  apply Permutation_app; [|done].
  apply Permutation_flat_map. by apply Permutation_map.
Qed.
End RunFacts.

(** C3, as stated, fails: the two runs below fetch the same snapshots of the
    same two users, the second acquisition in a different order, and log
    different messages. *)
Lemma reordered_run_differs :
  Forall2 Permutation run_same_order run_swapped
  ∧ ¬ Permutation
        (loop_update_status (R := sample_runtime) (map Ok run_same_order)).1
        (loop_update_status (R := sample_runtime) (map Ok run_swapped)).1.
Proof.
  split.
  - repeat constructor.
  - intros Hperm.
    apply (Permutation_in "Orlova Anna went ONLINE") in Hperm.
    + vm_compute in Hperm. by repeat destruct Hperm as [Hperm|Hperm].
    + vm_compute. tauto.
Qed.

(** C1 on a user who goes offline: the first acquisition is logged, the
    second raises [NameError], and the process ends with status 1 after
    logging the exception; no message says that the user went offline. *)
Theorem went_offline_raises_NameError :
  loop_update_status (R := sample_runtime) [Ok [anna true]; Ok [anna false]] =
    (["Orlova Anna is ONLINE"], Raised (NameError "format_usre_went_offline"))
  ∧ main (R := sample_runtime) [Ok [anna true]; Ok [anna false]] =
      (["Orlova Anna is ONLINE";
        "name 'format_usre_went_offline' is not defined"], Some 1%Z).
Proof. split; vm_compute; reflexivity. Qed.

(** ** [online_streak_duration.py]: the JSON writer *)

Lemma OutputWriterJSON_add_keeps_fd self user duration self' :
  OutputWriterJSON_add_user_duration self user duration = Ok self' →
  OutputWriterJSON__fd self' = OutputWriterJSON__fd self
  ∧ ∃ record,
      OutputWriterJSON__user_duration_to_object user duration = Ok record
      ∧ OutputWriterJSON__array self' = OutputWriterJSON__array self ++ [record].
Proof.
  intros (record & Hrecord & [= <-])%result_bind_Ok. split; [done|].
  by exists record.
Qed.

(** Nothing reaches the file while durations are added. *)
Lemma process_database_keeps_fd by_user : ∀ writer : OutputWriterJSON,
  OutputWriterJSON__fd (process_database by_user writer).1 =
    OutputWriterJSON__fd writer.
Proof.
  induction by_user as [|[user duration] rest IH]; intros writer; simpl;
    [done|].
  destruct (OutputWriterJSON_add_user_duration writer user duration)
    as [writer'|e] eqn:Hadd; [|done].
  rewrite IH. by apply OutputWriterJSON_add_keeps_fd in Hadd as [-> _].
Qed.

Lemma json_record_object call record :
  json_record call record →
  ∃ object members,
    OutputWriterJSON__user_duration_to_object call.1 call.2 = Ok object
    ∧ record_to_json object = Ok members
    ∧ record = JObject members.
Proof.
  intros (uid & first & last & screen & j1 & j2 & j3 & j4 & Huid & Hj1
          & Hfirst & Hj2 & Hlast & Hj3 & Hscreen & Hj4 & ->).
  eexists _, _.
  unfold OutputWriterJSON__user_duration_to_object; simpl.
  rewrite Huid; simpl. rewrite Hfirst; simpl. rewrite Hlast; simpl.
  rewrite Hscreen; simpl. split; [reflexivity|].
  split; [|reflexivity].
  cbn [record_to_json]. by rewrite Hj1, Hj2, Hj3, Hj4.
Qed.

Lemma process_database_records by_user records :
  Forall2 json_record by_user records →
  ∀ writer : OutputWriterJSON, ∃ objects,
    process_database by_user writer =
      (mkOutputWriterJSON (OutputWriterJSON__fd writer)
         (OutputWriterJSON__array writer ++ objects), Ok tt)
    ∧ ∀ items, array_to_json (OutputWriterJSON__array writer) = Ok items →
        array_to_json (OutputWriterJSON__array writer ++ objects) =
          Ok (items ++ records).
Proof.
  induction 1 as [|[user duration] record by_user records Hrecord _ IH];
    intros writer.
  - exists []. simpl. rewrite app_nil_r. split; [by destruct writer|].
    intros items ->. by rewrite app_nil_r.
  - destruct (json_record_object _ _ Hrecord)
      as (object & members & Hobject & Hmembers & ->).
    simpl in Hobject. simpl.
    unfold OutputWriterJSON_add_user_duration. rewrite Hobject; simpl.
    destruct (IH (mkOutputWriterJSON (OutputWriterJSON__fd writer)
                    (OutputWriterJSON__array writer ++ [object])))
      as (objects & Hrun & Hjson).
    exists (object :: objects). simpl in Hrun, Hjson.
    rewrite <- app_assoc in Hrun, Hjson. simpl in Hrun, Hjson.
    split; [done|].
    intros items Hitems.
    replace (items ++ JObject members :: records)
      with ((items ++ [JObject members]) ++ records)
      by (by rewrite <- app_assoc).
    apply Hjson. clear -Hitems Hmembers.
    revert items Hitems.
    induction (OutputWriterJSON__array writer) as [|r rs IHrs];
      intros items; simpl.
    + intros [= <-]. by rewrite Hmembers.
    + destruct (record_to_json r) as [m|e]; [|done]; simpl.
      destruct (array_to_json rs) as [rest|e]; [|done]; simpl.
      intros [= <-]. by rewrite (IHrs rest eq_refl).
Qed.

(** C7. The JSON writer writes nothing while durations are added. When each
    call has a record, closing the writer writes once: the JSON array of
    the records, one per call and in the order of the calls, each with the
    fields [uid], [first_name], [last_name], [screen_name] and then
    [duration] as a string. *)
Theorem OutputWriterJSON_writes_on_close (fd : list string)
    (by_user : list (User * timedelta)) (records : list json) :
  Forall2 json_record by_user records →
  (∀ calls (writer : OutputWriterJSON),
     OutputWriterJSON__fd (process_database calls writer).1 =
       OutputWriterJSON__fd writer)
  ∧ with_OutputWriterJSON fd (process_database by_user) =
      (fd ++ [json_dumps (JArray records) 3], Ok tt).
Proof.
  intros Hrecords. split; [intros; apply process_database_keeps_fd|].
  destruct (process_database_records _ _ Hrecords (OutputWriterJSON___init__ fd))
    as (objects & Hrun & Hjson).
  specialize (Hjson [] eq_refl). simpl in Hjson.
  unfold with_OutputWriterJSON. rewrite Hrun.
  unfold OutputWriterJSON___exit__; simpl.
  by rewrite Hjson.
Qed.

(** ** [online_streak_duration.py]: the table of the plot *)

Section PlotFacts.
Context {R : Runtime}.

Lemma py_eq_sym_hashable a b h : py_hash a = Ok h → py_eq a b = py_eq b a.
Proof.
  destruct a as [|a|a|a|a|a], b as [|b|b|b|b|b]; simpl; try done; intros _.
  - by destruct a, b.
  - apply Z.eqb_sym.
  - apply String.eqb_sym.
Qed.

Lemma User___hash___uid user h :
  User___hash__ user = Ok h →
  ∃ uid, User_get_uid user = Ok uid ∧ py_hash uid = Ok h.
Proof. by intros (uid & Huid & Hh)%result_bind_Ok; exists uid. Qed.

(** Two hashable users compare without raising, and the same either way
    round; users with different hashes are different. *)
Lemma User___eq___hashable u v hu hv :
  User___hash__ u = Ok hu → User___hash__ v = Ok hv →
  ∃ same, User___eq__ u v = Ok same ∧ User___eq__ v u = Ok same
          ∧ (hu ≠ hv → same = false).
Proof.
  intros Hu Hv.
  destruct (User___hash___uid _ _ Hu) as (a & Ha & Hha).
  destruct (User___hash___uid _ _ Hv) as (b & Hb & Hhb).
  exists (py_eq a b). unfold User___eq__. rewrite Ha, Hb; simpl.
  split; [done|]. split; [by rewrite (py_eq_sym_hashable a b hu)|].
  intros Hne. destruct (py_eq a b) eqn:Heq; [|done].
  apply py_eq_hash in Heq. congruence.
Qed.

Lemma dict_setitem_keys h key value d : ∀ d',
  dict_setitem h key value d = Ok d' →
  ∀ e, In e d' → e.1.2 = key ∨ ∃ e0, In e0 d ∧ e0.1.2 = e.1.2.
Proof.
  induction d as [|[[h0 k0] v0] rest IH]; intros d'; simpl.
  - intros [= <-] e [<-|[]]. by left.
  - assert (Hrec : ∀ rest', dict_setitem h key value rest = Ok rest' →
              ∀ e, In e ((h0, k0, v0) :: rest') →
                e.1.2 = key ∨ ∃ e0, In e0 ((h0, k0, v0) :: rest)
                                    ∧ e0.1.2 = e.1.2).
    { intros rest' Hrest e [<-|Hin].
      - right. exists (h0, k0, v0). split; [by left | done].
      - destruct (IH rest' Hrest e Hin) as [?|(e0 & Hin0 & Hk)]; [by left|].
        right. exists e0. split; [by right | done]. }
    destruct (h0 =? h)%Z.
    + destruct (User___eq__ k0 key) as [[]|err]; simpl; [| |done].
      * intros [= <-] e [<-|Hin]; right.
        -- exists (h0, k0, v0). split; [by left | done].
        -- exists e. split; [by right | done].
      * intros (rest' & Hrest & [= <-])%result_bind_Ok. by apply Hrec.
    + intros (rest' & Hrest & [= <-])%result_bind_Ok. by apply Hrec.
Qed.

Lemma dict_setitem_wf h key value d : ∀ d',
  User___hash__ key = Ok h →
  hashes_cached d → keys_distinct d →
  dict_setitem h key value d = Ok d' →
  hashes_cached d' ∧ keys_distinct d'.
Proof.
  induction d as [|[[h0 k0] v0] rest IH]; intros d' Hkey Hcached Hdistinct;
    simpl.
  - intros [= <-]. split; [by repeat constructor | done].
  - apply Forall_cons in Hcached as [Hk0 Hcached]; simpl in Hk0.
    destruct Hdistinct as [Hlater Hdistinct].
    destruct (User___eq___hashable k0 key h0 h Hk0 Hkey)
      as (same & Heq & _ & Hdiff).
    assert (Hrec : ∀ rest', same = false →
              dict_setitem h key value rest = Ok rest' →
              hashes_cached ((h0, k0, v0) :: rest')
              ∧ keys_distinct ((h0, k0, v0) :: rest')).
    { intros rest' -> Hrest.
      destruct (IH rest' Hkey Hcached Hdistinct Hrest) as [Hc Hd].
      split; [by constructor|]. split; [|done].
      apply Forall_forall. intros e Hin%list_elem_of_In.
      destruct (dict_setitem_keys _ _ _ _ _ Hrest e Hin)
        as [->|(e0 & Hin0%list_elem_of_In & <-)]; [done|].
      by apply (proj1 (Forall_forall _ _) Hlater). }
    destruct (Z.eqb_spec h0 h) as [->|Hne].
    + rewrite Heq; simpl. destruct same.
      * intros [= <-]. split; [by constructor | done].
      * intros (rest' & Hrest & [= <-])%result_bind_Ok. by apply Hrec.
    + intros (rest' & Hrest & [= <-])%result_bind_Ok.
      apply Hrec; [by apply Hdiff | done].
Qed.

Lemma PlotBuilder_add_wf self user duration self' :
  hashes_cached (PlotBuilder__duration_by_user self) →
  keys_distinct (PlotBuilder__duration_by_user self) →
  PlotBuilder_add_user_duration self user duration = Ok self' →
  hashes_cached (PlotBuilder__duration_by_user self')
  ∧ keys_distinct (PlotBuilder__duration_by_user self').
Proof.
  intros Hc Hd (h & Hh & (d & Hset & [= <-])%result_bind_Ok)%result_bind_Ok.
  by apply (dict_setitem_wf h user duration
              (PlotBuilder__duration_by_user self) d).
Qed.

Lemma process_database_wf calls : ∀ self self' : PlotBuilder,
  hashes_cached (PlotBuilder__duration_by_user self) →
  keys_distinct (PlotBuilder__duration_by_user self) →
  process_database calls self = (self', Ok tt) →
  hashes_cached (PlotBuilder__duration_by_user self')
  ∧ keys_distinct (PlotBuilder__duration_by_user self').
Proof.
  induction calls as [|[user duration] rest IH]; intros self self' Hc Hd;
    simpl.
  - by intros [= <-].
  - destruct (PlotBuilder_add_user_duration self user duration)
      as [self1|e] eqn:Hadd; [|done].
    destruct (PlotBuilder_add_wf _ _ _ _ Hc Hd Hadd) as [Hc1 Hd1].
    by apply IH.
Qed.

Lemma keys_distinct_lookup d : ∀ i j ei ej,
  keys_distinct d → i < j →
  d !! i = Some ei → d !! j = Some ej →
  User___eq__ ei.1.2 ej.1.2 = Ok false.
Proof.
  induction d as [|[[h0 k0] v0] rest IH]; intros i j ei ej Hd Hij; [done|].
  destruct Hd as [Hlater Hd].
  destruct i as [|i], j as [|j]; try lia; simpl.
  - intros [= <-] Hj. simpl.
    by apply (proj1 (Forall_lookup _ _) Hlater j ej).
  - apply IH; [done | lia].
Qed.

(** C8. For users that both have a UID, [u == v] is [u.get_uid() ==
    v.get_uid()] whatever the other fields hold, and equal users have
    equal hashes. So the table of the plot keeps one entry per UID: a
    second duration for an equal user replaces the first, and no two keys
    of the table are equal. *)
Theorem User_identity_is_uid (u v : User) (a b : pyval) :
  User_get_uid u = Ok a →
  User_get_uid v = Ok b →
  User___eq__ u v = Ok (py_eq a b)
  ∧ (∀ u' v', User_get_uid u' = Ok a → User_get_uid v' = Ok b →
       User___eq__ u' v' = User___eq__ u v)
  ∧ (py_eq a b = true → User___hash__ u = User___hash__ v)
  ∧ (py_eq a b = true → ∀ h d1 d2, User___hash__ u = Ok h →
       process_database [(u, d1); (v, d2)] PlotBuilder___init__ =
         (mkPlotBuilder [(h, u, d2)], Ok tt))
  ∧ (∀ calls (self : PlotBuilder) i j ki kj,
       process_database calls PlotBuilder___init__ = (self, Ok tt) →
       PlotBuilder_keys self !! i = Some ki →
       PlotBuilder_keys self !! j = Some kj →
       User___eq__ ki kj = Ok true → i = j).
Proof.
  intros Hu Hv.
  pose proof (User___eq___uid u v a b Hu Hv) as Heq.
  split; [done|]. split; [|split; [|split]].
  - intros u' v' Hu' Hv'. by rewrite Heq, (User___eq___uid u' v' a b).
  - intros Hab. apply User___eq___hash. by rewrite Heq, Hab.
  - intros Hab h d1 d2 Hh.
    assert (Hhv : User___hash__ v = Ok h).
    { rewrite <- (User___eq___hash u v); [done | by rewrite Heq, Hab]. }
    unfold process_database, add_user_duration, PlotBuilder_writer,
      PlotBuilder_add_user_duration.
    rewrite Hh.
    cbn [result_bind dict_setitem PlotBuilder___init__
           PlotBuilder__duration_by_user].
    rewrite Hhv. cbn [result_bind dict_setitem PlotBuilder__duration_by_user].
    by rewrite Z.eqb_refl, Heq, Hab.
  - intros calls self i j ki kj Hrun Hi Hj Hsame.
    destruct (process_database_wf calls PlotBuilder___init__ self)
      as [Hc Hd]; [by constructor | done | done |].
    unfold PlotBuilder_keys in Hi, Hj.
    rewrite list_lookup_fmap in Hi, Hj.
    apply fmap_Some in Hi as (ei & Hei & ->).
    apply fmap_Some in Hj as (ej & Hej & ->).
    destruct (lt_eq_lt_dec i j) as [[Hlt|Heqij]|Hgt]; [|done|].
    + pose proof (keys_distinct_lookup _ i j ei ej Hd Hlt Hei Hej).
      congruence.
    + pose proof (keys_distinct_lookup _ j i ej ei Hd Hgt Hej Hei) as Hji.
      destruct (User___eq___hashable ej.1.2 ei.1.2 ej.1.1 ei.1.1)
        as (same & H1 & H2 & _).
      * by apply (proj1 (Forall_lookup _ _) Hc j ej).
      * by apply (proj1 (Forall_lookup _ _) Hc i ei).
      * congruence.
Qed.
End PlotFacts.

(** ** The theorems on sample data *)

Lemma parse_timeout_spec_witness :
  int_of_str " 10" = Ok 10%Z ∧ parse_timeout (VStr " 10") = Ok 10%Z
  ∧ timeout_argument (Some " 10") = Ok 10%Z
  ∧ int_of_str "0" = Ok 0%Z
  ∧ parse_timeout (VStr "0") =
      Raise (ArgumentTypeError
        "please specify a positive number of seconds as refresh timeout")
  ∧ timeout_argument (Some "0") = Raise (SystemExit 2)
  ∧ int_of_str (String "028" "5") = Raise ValueError
  ∧ timeout_argument (Some (String "028" "5")) = Raise (SystemExit 2).
Proof.
  split; [reflexivity|]. split.
  { apply (proj1 (parse_timeout_spec " 10")). split; [reflexivity | lia]. }
  split.
  { apply (proj1 (proj2 (proj2 (parse_timeout_spec " 10")))).
    split; [reflexivity | lia]. }
  split; [reflexivity|]. split.
  { apply (proj1 (proj2 (parse_timeout_spec "0"))).
    split; [|reflexivity]. exists 0%Z. split; [reflexivity | lia]. }
  split.
  { apply (proj1 (proj2 (proj2 (proj2 (parse_timeout_spec "0"))))).
    intros n Hn. vm_compute in Hn. injection Hn as <-. lia. }
  split; [reflexivity|].
  apply (proj1 (proj2 (proj2 (proj2 (parse_timeout_spec (String "028" "5")))))).
  intros n Hn. vm_compute in Hn. discriminate Hn.
Defined.

Lemma User_fields_stay_parsed_witness :
  fields_parsed
    (mutate_all (R := sample_runtime) (User___init__ None)
       [SetItem UID (VStr "12"); SetItem ONLINE (VStr "yes");
        SetItem ONLINE (VInt 1); SetItem UID VNone; DelItem FIRST_NAME])
  ∧ User___setitem__ (R := sample_runtime) (User___init__ None) ONLINE
      (VStr "false") = Raise ValueError.
Proof.
  split.
  - apply (proj1 (User_fields_stay_parsed (R := sample_runtime))).
  - by rewrite (proj1 (proj2 (User_fields_stay_parsed (R := sample_runtime)))).
Defined.

Lemma User_get_screen_name_spec_witness :
  User_get_uid (anna true) = Ok (VInt 1)
  ∧ User_get_screen_name (R := sample_runtime) (anna true) = Ok (VStr "id1").
Proof.
  split; [reflexivity|].
  apply (User_get_screen_name_spec (R := sample_runtime) (anna true) 1).
  reflexivity.
Defined.

Lemma User_identity_is_uid_witness :
  User_get_uid (anna true) = Ok (VInt 1)
  ∧ User_get_uid (anna false) = Ok (VInt 1)
  ∧ User___eq__ (anna true) (anna false) = Ok true
  ∧ User___hash__ (R := sample_runtime) (anna true) =
      User___hash__ (R := sample_runtime) (anna false)
  ∧ process_database (H := PlotBuilder_writer (R := sample_runtime))
      [(anna true, mkTimedelta 0 30 0); (anna false, mkTimedelta 0 45 0)]
      PlotBuilder___init__ =
      (mkPlotBuilder [(1%Z, anna true, mkTimedelta 0 45 0)], Ok tt).
Proof.
  split; [reflexivity|]. split; [reflexivity|].
  destruct (User_identity_is_uid (R := sample_runtime) (anna true) (anna false)
              (VInt 1) (VInt 1) eq_refl eq_refl)
    as (Heq & _ & Hhash & Hplot & _).
  split; [exact Heq|]. split; [exact (Hhash eq_refl)|].
  exact (Hplot eq_refl 1%Z _ _ eq_refl).
Defined.

Lemma OutputWriterJSON_writes_on_close_witness :
  Forall2 json_record
    [(sample_profile 1 "Anna" "Orlova" "anna", mkTimedelta 0 75 0);
     (sample_profile 2 "Boris" "Petrov" "id2", mkTimedelta 1 3600 0)]
    [JObject [("uid", JInt 1); ("first_name", JStr "Anna");
              ("last_name", JStr "Orlova"); ("screen_name", JStr "anna");
              ("duration", JStr "0:01:15")];
     JObject [("uid", JInt 2); ("first_name", JStr "Boris");
              ("last_name", JStr "Petrov"); ("screen_name", JStr "id2");
              ("duration", JStr "1 day, 1:00:00")]]
  ∧ with_OutputWriterJSON []
      (process_database
         [(sample_profile 1 "Anna" "Orlova" "anna", mkTimedelta 0 75 0);
          (sample_profile 2 "Boris" "Petrov" "id2", mkTimedelta 1 3600 0)]) =
      ([] ++
       [json_dumps
          (JArray
             [JObject [("uid", JInt 1); ("first_name", JStr "Anna");
                       ("last_name", JStr "Orlova");
                       ("screen_name", JStr "anna");
                       ("duration", JStr "0:01:15")];
              JObject [("uid", JInt 2); ("first_name", JStr "Boris");
                       ("last_name", JStr "Petrov");
                       ("screen_name", JStr "id2");
                       ("duration", JStr "1 day, 1:00:00")]]) 3],
       Ok tt).
Proof.
  assert (Hrecords : Forall2 json_record
    [(sample_profile 1 "Anna" "Orlova" "anna", mkTimedelta 0 75 0);
     (sample_profile 2 "Boris" "Petrov" "id2", mkTimedelta 1 3600 0)]
    [JObject [("uid", JInt 1); ("first_name", JStr "Anna");
              ("last_name", JStr "Orlova"); ("screen_name", JStr "anna");
              ("duration", JStr "0:01:15")];
     JObject [("uid", JInt 2); ("first_name", JStr "Boris");
              ("last_name", JStr "Petrov"); ("screen_name", JStr "id2");
              ("duration", JStr "1 day, 1:00:00")]]).
  { constructor; [|constructor; [|constructor]];
      unfold json_record; eexists _, _, _, _, _, _, _, _;
      repeat split; reflexivity. }
  split; [exact Hrecords|].
  exact (proj2 (OutputWriterJSON_writes_on_close [] _ _ Hrecords)).
Defined.


Lemma fixed_order_runs_agree_witness :
  Permutation [anna_history; boris_history] [boris_history; anna_history]
  ∧ loop_update_status (R := sample_runtime)
      (acquisitions [anna_history; boris_history] 0 3) =
      (["Orlova Anna is OFFLINE"; "Orlova Anna was last seen at 1450000000";
        "Petrov Boris is ONLINE"; "Orlova Anna went ONLINE"],
       Running [anna true; boris true])
  ∧ ∃ l' users',
      loop_update_status (R := sample_runtime)
        (acquisitions [boris_history; anna_history] 0 3) =
        (l', Running users')
      ∧ Permutation
          ["Orlova Anna is OFFLINE"; "Orlova Anna was last seen at 1450000000";
           "Petrov Boris is ONLINE"; "Orlova Anna went ONLINE"] l'
      ∧ Permutation [anna true; boris true] users'.
Proof.
  split; [apply perm_swap|]. split; [reflexivity|].
  apply (fixed_order_runs_agree (R := sample_runtime)
           [anna_history; boris_history] [boris_history; anna_history] 2).
  - apply perm_swap.
  - reflexivity.
Defined.

Lemma main_exit_status_witness :
  loop_update_status (R := sample_runtime)
    [Ok [anna true]; Ok [anna true]; Raise KeyboardInterrupt] =
    (["Orlova Anna is ONLINE"], Raised KeyboardInterrupt)
  ∧ (main (R := sample_runtime)
       [Ok [anna true]; Ok [anna true]; Raise KeyboardInterrupt]).2 = Some 0%Z
  ∧ loop_update_status (R := sample_runtime)
      [Ok [anna true]; Raise APIConnectionError] =
      (["Orlova Anna is ONLINE"], Raised APIConnectionError)
  ∧ (main (R := sample_runtime)
       [Ok [anna true]; Raise APIConnectionError]).2 = Some 1%Z.
Proof.
  split; [reflexivity|]. split.
  - apply (proj1 (main_exit_status (R := sample_runtime)
                    [Ok [anna true]; Ok [anna true]; Raise KeyboardInterrupt]
                    ["Orlova Anna is ONLINE"] KeyboardInterrupt eq_refl)).
    reflexivity.
  - split; [reflexivity|].
    apply (proj2 (main_exit_status (R := sample_runtime)
                    [Ok [anna true]; Raise APIConnectionError]
                    ["Orlova Anna is ONLINE"] APIConnectionError eq_refl)).
    reflexivity.
Defined.

Lemma unchanged_user_is_framed_witness :
  [anna true; boris false] !! 0 = Some (anna true)
  ∧ [anna true; boris true] !! 0 = Some (anna true)
  ∧ User_is_online (anna true) = Ok (VBool true)
  ∧ py_ne (VBool true) (VBool true) = false
  ∧ update_all (R := sample_runtime)
      [anna true; boris true] [anna true; boris false] =
      ([anna true; boris true], (["Petrov Boris went ONLINE"], Ok tt))
  ∧ [anna true; boris true] !! 0 = Some (anna true)
  ∧ update_all (R := sample_runtime) [boris true] [boris false] =
      ([boris true], (["Petrov Boris went ONLINE"], Ok tt)).
Proof.
  split; [reflexivity|]. split; [reflexivity|]. split; [reflexivity|].
  split; [reflexivity|]. split; [reflexivity|].
  exact (unchanged_user_is_framed (R := sample_runtime) 0
           [anna true; boris false] [anna true; boris true]
           (anna true) (anna true) (VBool true) (VBool true)
           eq_refl eq_refl eq_refl eq_refl eq_refl
           [anna true; boris true] (["Petrov Boris went ONLINE"], Ok tt)
           eq_refl).
Defined.

(** * Further properties *)

(** ** [vk/user.py]: assignment, deletion, lookup *)

Section OrderedDictMore.
Context {K V : Type} `{EqDecision K}.
Implicit Types (k : K) (v : V) (d : list (K * V)).

Lemma od_set_length k v d :
  length (od_set k v d) =
    if od_contains k d then length d else S (length d).
Proof.
  unfold od_contains. induction d as [|[k' v'] d IH]; simpl; [done|].
  destruct (decide (k' = k)); simpl; [done|].
  rewrite IH. by destruct (od_get k d).
Qed.

Lemma od_set_keys k v d :
  (od_set k v d).*1 = if od_contains k d then d.*1 else d.*1 ++ [k].
Proof.
  unfold od_contains. induction d as [|[k' v'] d IH]; [done|].
  cbn [od_set od_get]. destruct (decide (k' = k)); [done|].
  rewrite !fmap_cons, IH. by destruct (od_get k d).
Qed.

Lemma od_set_id k v d : od_get k d = Some v → od_set k v d = d.
Proof.
  induction d as [|[k' v'] d IH]; simpl; [done|].
  destruct (decide (k' = k)).
  - by intros [= ->].
  - intros Hget. by rewrite IH.
Qed.

Lemma od_get_None_keys k d : od_get k d = None ↔ ¬ In k d.*1.
Proof.
  induction d as [|[k' v'] d IH]; simpl; [tauto|].
  destruct (decide (k' = k)); [|tauto].
  split; [done | tauto].
Qed.

Lemma od_get_del_eq k d : NoDup d.*1 → od_get k (od_del k d) = None.
Proof.
  induction d as [|[k' v'] d IH]; simpl; [done|].
  intros [Hnotin Hnodup]%NoDup_cons.
  destruct (decide (k' = k)) as [->|Hne]; simpl.
  - apply od_get_None_keys. by rewrite <- list_elem_of_In.
  - rewrite decide_False by done. by apply IH.
Qed.

Lemma od_get_del_ne k k' d : k ≠ k' → od_get k' (od_del k d) = od_get k' d.
Proof.
  intros Hne. induction d as [|[k0 v0] d IH]; simpl; [done|].
  destruct (decide (k0 = k)) as [->|Hk0]; simpl.
  - by rewrite decide_False.
  - destruct (decide (k0 = k')); [done | apply IH].
Qed.

Lemma od_del_length k d :
  od_contains k d = true → S (length (od_del k d)) = length d.
Proof.
  unfold od_contains. induction d as [|[k' v'] d IH]; simpl; [done|].
  destruct (decide (k' = k)); simpl; [done|].
  intros Hc. by rewrite IH.
Qed.

Lemma od_del_keys_In k k' d : In k' (od_del k d).*1 → In k' d.*1.
Proof.
  induction d as [|[k0 v0] d IH]; [done|].
  cbn [od_del]. destruct (decide (k0 = k)); rewrite !fmap_cons; simpl.
  - by right.
  - intros [<-|Hin]; [by left | right; by apply IH].
Qed.

Lemma od_del_NoDup k d : NoDup d.*1 → NoDup (od_del k d).*1.
Proof.
  induction d as [|[k0 v0] d IH]; [done|].
  cbn [od_del]. rewrite fmap_cons. intros [Hnotin Hnodup]%NoDup_cons.
  destruct (decide (k0 = k)); [done|].
  rewrite fmap_cons. apply NoDup_cons. split; [|by apply IH].
  rewrite list_elem_of_In. intros Hin%od_del_keys_In.
  by apply Hnotin, list_elem_of_In.
Qed.
End OrderedDictMore.

Section UserMore.
Context {R : Runtime}.

(** A parsed value parses to itself. *)
Lemma User_parse_idempotent field value w :
  User_parse field value = Ok w → User_parse field w = Ok w.
Proof.
  destruct field; simpl.
  - by intros (z & _ & [= <-])%result_bind_Ok.
  - by intros [= <-].
  - by intros [= <-].
  - by intros [= <-].
  - intros (b & _ & [= <-])%result_bind_Ok. done.
  - intros (l & _ & [= <-])%result_bind_Ok. done.
Qed.

Lemma mutate_all_stable ms : ∀ self,
  (∀ f w, In (f, w) (User__fields self) → User_parse f w = Ok w) →
  ∀ f w, In (f, w) (User__fields (mutate_all self ms)) → User_parse f w = Ok w.
Proof.
  induction ms as [|m ms IH]; intros self Hstable; simpl; [done|].
  destruct (mutate self m) as [self'|e] eqn:Hm; [|by apply IH].
  apply IH. destruct m as [field value|field]; simpl in Hm.
  - apply result_bind_Ok in Hm as (v & Hparse & [= <-]); simpl.
    intros f w [[= -> ->]|Hin]%od_set_In.
    + by apply (User_parse_idempotent _ value).
    + by apply Hstable.
  - unfold User___delitem__ in Hm.
    destruct (od_contains field (User__fields self)); [|done].
    revert Hm. intros [= <-]; simpl.
    intros f w Hin%od_del_In. by apply Hstable.
Qed.

(** No field is held twice, whatever was assigned and deleted. *)
Lemma mutate_all_NoDup ms : ∀ self,
  NoDup (User___iter__ self) → NoDup (User___iter__ (mutate_all self ms)).
Proof.
  unfold User___iter__.
  induction ms as [|m ms IH]; intros self Hnodup; simpl; [done|].
  destruct (mutate self m) as [self'|e] eqn:Hm; [|by apply IH].
  apply IH. destruct m as [field value|field]; simpl in Hm.
  - apply result_bind_Ok in Hm as (v & Hparse & [= <-]); simpl.
    rewrite od_set_keys. unfold od_contains.
    destruct (od_get field (User__fields self)) eqn:Hget; [done|].
    apply NoDup_app. split; [done|]. split; [|by apply NoDup_singleton].
    intros k Hk ->%list_elem_of_singleton.
    apply od_get_None_keys in Hget. by apply Hget, list_elem_of_In.
  - unfold User___delitem__ in Hm.
    destruct (od_contains field (User__fields self)); [|done].
    revert Hm. intros [= <-]; simpl.
    by apply od_del_NoDup.
Qed.

(** X1. An assignment that succeeds can be read back: the field then holds
    the parsed value, every other field is as before, and the user has one
    more field exactly when the field was new. *)
Theorem User_setitem_getitem self field value self' :
  User___setitem__ self field value = Ok self' →
  User___getitem__ self' field = User_parse field value
  ∧ (∀ other, other ≠ field →
       User___getitem__ self' other = User___getitem__ self other)
  ∧ User___len__ self' =
      (if User___contains__ self field
       then User___len__ self else S (User___len__ self))
  ∧ User___iter__ self' =
      (if User___contains__ self field
       then User___iter__ self else User___iter__ self ++ [field]).
Proof.
  intros (v & Hparse & [= <-])%result_bind_Ok. rewrite Hparse.
  unfold User___getitem__, User___len__, User___iter__, User___contains__,
    User___getitem__; simpl.
  split; [by rewrite od_get_set_eq|]. split; [|split].
  - intros other Hne. by rewrite od_get_set_ne.
  - rewrite od_set_length. unfold od_contains.
    by destruct (od_get field (User__fields self)).
  - rewrite od_set_keys. unfold od_contains.
    by destruct (od_get field (User__fields self)).
Qed.

(** X2. Whatever was assigned to and deleted from a new user, a value read
    from it can be assigned back to its field and leaves the user as it
    is. *)
Theorem User_reassign_stored (ms : list mutation) (field : UserField)
    (w : pyval) :
  User___getitem__ (mutate_all (User___init__ None) ms) field = Ok w →
  User___setitem__ (mutate_all (User___init__ None) ms) field w =
    Ok (mutate_all (User___init__ None) ms).
Proof.
  set (self := mutate_all (User___init__ None) ms).
  unfold User___getitem__.
  destruct (od_get field (User__fields self)) as [w'|] eqn:Hget; [|done].
  intros [= ->]. unfold User___setitem__.
  rewrite (mutate_all_stable ms (User___init__ None)
             (λ f w' (H : In (f, w') []), match H with end) field w
             (od_get_In _ _ _ Hget)); simpl.
  rewrite (od_set_id _ _ _ Hget). by destruct self.
Qed.

(** X3. Deleting a field the user does not hold raises [KeyError]; deleting
    one it holds removes that field and nothing else. *)
Theorem User_delitem_spec self field :
  NoDup (User___iter__ self) →
  (User___contains__ self field = false →
     User___delitem__ self field = Raise (KeyError (UserField_repr field)))
  ∧ (User___contains__ self field = true →
       ∃ self', User___delitem__ self field = Ok self'
         ∧ User___contains__ self' field = false
         ∧ (∀ other, other ≠ field →
              User___getitem__ self' other = User___getitem__ self other)
         ∧ S (User___len__ self') = User___len__ self
         ∧ NoDup (User___iter__ self')).
Proof.
  intros Hnodup.
  unfold User___contains__, User___getitem__, User___delitem__, od_contains,
    User___len__, User___iter__ in *.
  destruct (od_get field (User__fields self)) as [v|] eqn:Hget.
  - split; [done|]. intros _. eexists. split; [done|]. simpl.
    split; [by rewrite od_get_del_eq|]. split; [|split].
    + intros other Hne. by rewrite od_get_del_ne.
    + apply od_del_length. unfold od_contains. by rewrite Hget.
    + by apply od_del_NoDup.
  - split; [done|]. done.
Qed.
End UserMore.

(** ** [vk/user.py]: users from API responses, identity *)

Section UserResponses.
Context {R : Runtime}.

Lemma UserField_members_all field : In field UserField_members.
Proof. destruct field; simpl; tauto. Qed.

Lemma UserField_members_NoDup : NoDup UserField_members.
Proof.
  unfold UserField_members.
  repeat (apply NoDup_cons; split;
          [rewrite list_elem_of_In; simpl; intuition discriminate|]).
  apply NoDup_nil_2.
Qed.

Lemma from_api_response_loop_fields members source : ∀ instance user,
  NoDup members →
  (∀ f, In f members → od_get f (User__fields instance) = None) →
  from_api_response_loop members source instance = Ok user →
  User__fields user =
    User__fields instance ++ omap (response_entry source) members.
Proof.
  induction members as [|field rest IH]; intros instance user Hnodup Hfresh.
  - simpl. intros [= <-]. by rewrite app_nil_r.
  - apply NoDup_cons in Hnodup as [Hnotin Hnodup].
    cbn [from_api_response_loop omap list_omap]. unfold response_entry at 1.
    destruct (od_get (UserField_str field) source) as [v|].
    + intros (instance' & Hset & Hloop)%result_bind_Ok.
      apply result_bind_Ok in Hset as (w & Hparse & [= <-]).
      rewrite Hparse.
      assert (Hfresh' : ∀ f, In f rest →
                od_get f (od_set field w (User__fields instance)) = None).
      { intros f Hf. rewrite od_set_fresh by (apply Hfresh; by left).
        rewrite od_get_app_r by (apply Hfresh; by right).
        simpl. rewrite decide_False; [done|].
        intros ->. by apply Hnotin, list_elem_of_In. }
      rewrite (IH (mkUser (od_set field w (User__fields instance))) user
                 Hnodup Hfresh' Hloop). simpl.
      rewrite od_set_fresh by (apply Hfresh; by left).
      by rewrite <- app_assoc.
    + intros Hloop. apply (IH instance user Hnodup); [|done].
      intros f Hf. apply Hfresh. by right.
Qed.

Lemma from_api_response_loop_Ok members source : ∀ instance,
  (∃ user, from_api_response_loop members source instance = Ok user)
  ↔ (∀ f v, In f members → od_get (UserField_str f) source = Some v →
       ∃ w, User_parse f v = Ok w).
Proof.
  induction members as [|field rest IH]; intros instance; simpl.
  - split; [by intros _ f v [] | by eexists].
  - destruct (od_get (UserField_str field) source) as [v|] eqn:Hget.
    + split.
      * intros (user & (instance' & Hset & Hloop)%result_bind_Ok).
        apply result_bind_Ok in Hset as (w & Hparse & [= <-]).
        intros f v' [<-|Hin] Hf.
        -- rewrite Hget in Hf. revert Hf. intros [= <-]. by exists w.
        -- apply (proj1 (IH _) (ex_intro _ user Hloop) f v' Hin Hf).
      * intros Hall. destruct (Hall field v (or_introl eq_refl) Hget)
          as [w Hparse].
        unfold User___setitem__. rewrite Hparse; simpl.
        apply IH. intros f v' Hin. apply Hall. by right.
    + rewrite IH. split.
      * intros Hall f v [<-|Hin] Hf; [congruence | by apply Hall].
      * intros Hall f v Hin. apply Hall. by right.
Qed.

Lemma from_api_response_loop_Raise members source : ∀ instance e,
  from_api_response_loop members source instance = Raise e →
  ∃ f v, od_get (UserField_str f) source = Some v
         ∧ User_parse f v = Raise e.
Proof.
  induction members as [|field rest IH]; intros instance e; simpl; [done|].
  destruct (od_get (UserField_str field) source) as [v|] eqn:Hget;
    [|apply IH].
  unfold User___setitem__.
  destruct (User_parse field v) as [w|e'] eqn:Hparse; simpl.
  - apply IH.
  - intros [= ->]. by exists field, v.
Qed.

Lemma from_api_response_loop_ext members source source' : ∀ instance,
  (∀ f, od_get (UserField_str f) source = od_get (UserField_str f) source') →
  from_api_response_loop members source instance =
    from_api_response_loop members source' instance.
Proof.
  intros instance Hsame. revert instance.
  induction members as [|field rest IH]; intros instance; simpl; [done|].
  rewrite <- (Hsame field).
  destruct (od_get (UserField_str field) source) as [v|]; [|apply IH].
  destruct (User___setitem__ instance field v) as [instance'|e]; simpl;
    [apply IH | done].
Qed.

(** X4. A user built from an API response holds, in the order the fields
    are declared, the parsed value of each field the response names and no
    other field. *)
Theorem User_from_api_response_fields (source : list (string * pyval))
    (user : User) :
  User_from_api_response source = Ok user →
  User__fields user = omap (response_entry source) UserField_members
  ∧ (∀ field,
       User___getitem__ user field =
         match od_get (UserField_str field) source with
         | Some v => User_parse field v
         | None => Raise (KeyError (UserField_repr field))
         end)
  ∧ User___iter__ user =
      filter (fun field => od_contains (UserField_str field) source = true)
        UserField_members.
Proof.
  intros Hfrom.
  assert (Hparsed : ∀ f v, od_get (UserField_str f) source = Some v →
            ∃ w, User_parse f v = Ok w).
  { intros f v. apply (proj1 (from_api_response_loop_Ok _ _ _)
      (ex_intro _ user Hfrom)), UserField_members_all. }
  pose proof (from_api_response_loop_fields UserField_members source
                (User___init__ None) user UserField_members_NoDup
                (λ f _, eq_refl) Hfrom) as Hfields.
  simpl app in Hfields. split; [done|].
  assert (Hentry : ∀ field,
            response_entry source field =
              match od_get (UserField_str field) source with
              | Some v => match User_parse field v with
                          | Ok w => Some (field, w) | Raise _ => None end
              | None => None
              end) by done.
  split.
  - intros field. unfold User___getitem__. rewrite Hfields.
    destruct field; cbn [UserField_members omap list_omap];
      repeat match goal with
             | |- context [response_entry source ?f] =>
                 let Hf := fresh in
                 let v := fresh "v" in
                 rewrite (Hentry f);
                 destruct (od_get (UserField_str f) source) as [v|] eqn:Hf;
                 [destruct (Hparsed f v Hf) as [? ->]|]
             end; simpl; done.
  - unfold User___iter__. rewrite Hfields.
    cbn [UserField_members omap list_omap filter list_filter].
    unfold od_contains.
    repeat match goal with
           | |- context [response_entry source ?f] =>
               let Hf := fresh in
               let v := fresh "v" in
               rewrite (Hentry f);
               destruct (od_get (UserField_str f) source) as [v|] eqn:Hf;
               [destruct (Hparsed f v Hf) as [? ->]|]
           end; simpl;
    repeat (rewrite decide_True by done || rewrite decide_False by done);
    done.
Qed.

(** X5. Building a user from an API response succeeds exactly when every
    field the response names has a value its parser accepts; when it fails,
    the exception is the one a parser raised on the value of a named
    field. *)
Theorem User_from_api_response_succeeds (source : list (string * pyval)) :
  ((∃ user, User_from_api_response source = Ok user)
   ↔ (∀ field v, od_get (UserField_str field) source = Some v →
        ∃ w, User_parse field v = Ok w))
  ∧ (∀ e, User_from_api_response source = Raise e →
       ∃ field v, od_get (UserField_str field) source = Some v
                  ∧ User_parse field v = Raise e).
Proof.
  split.
  - unfold User_from_api_response. rewrite from_api_response_loop_Ok.
    split; [|by intros Hall f v _; apply Hall].
    intros Hall f v. apply Hall, UserField_members_all.
  - intros e. apply from_api_response_loop_Raise.
Qed.

(** X6. Only what the response holds under the six field names matters:
    two responses that agree there, whatever else they hold and in whatever
    order, give the same user or the same exception. *)
Theorem User_from_api_response_ext (source source' : list (string * pyval)) :
  (∀ field, od_get (UserField_str field) source
            = od_get (UserField_str field) source') →
  User_from_api_response source = User_from_api_response source'.
Proof. intros Hsame. by apply from_api_response_loop_ext. Qed.

Lemma py_eq_refl_hashable a h : py_hash a = Ok h → py_eq a a = true.
Proof.
  destruct a as [|a|a|a|a|a]; simpl; try done; intros _.
  - by destruct a.
  - apply Z.eqb_refl.
  - apply String.eqb_refl.
Qed.

Lemma py_eq_trans_hashable a b c ha hb hc :
  py_hash a = Ok ha → py_hash b = Ok hb → py_hash c = Ok hc →
  py_eq a b = true → py_eq b c = true → py_eq a c = true.
Proof.
  destruct a as [|a|a|a|a|a], b as [|b|b|b|b|b], c as [|c|c|c|c|c];
    simpl; try done; intros _ _ _;
    rewrite ?Z.eqb_eq, ?String.eqb_eq, ?Bool.eqb_true_iff;
    try congruence.
  all: try (destruct a); try (destruct b); try (destruct c);
    intros; subst; try done; try lia.
Qed.

(** X7. On users whose UID can be hashed, [==] is reflexive, symmetric and
    transitive, so it groups them into classes as a dictionary needs. *)
Theorem User___eq___equivalence (u v w : User) (hu hv hw : Z) :
  User___hash__ u = Ok hu →
  User___hash__ v = Ok hv →
  User___hash__ w = Ok hw →
  User___eq__ u u = Ok true
  ∧ User___eq__ u v = User___eq__ v u
  ∧ (User___eq__ u v = Ok true → User___eq__ v w = Ok true →
     User___eq__ u w = Ok true).
Proof.
  intros (a & Ha & Hha)%result_bind_Ok (b & Hb & Hhb)%result_bind_Ok
    (c & Hc & Hhc)%result_bind_Ok.
  unfold User___eq__. rewrite Ha, Hb, Hc; simpl.
  split; [by rewrite (py_eq_refl_hashable a hu)|].
  split; [by rewrite (py_eq_sym_hashable a b hu)|].
  intros [= Hab] [= Hbc].
  by rewrite (py_eq_trans_hashable a b c hu hv hw).
Qed.
End UserResponses.

(** ** [track_status.py]: what is logged and stored *)

Section TrackerMore.
Context {R : Runtime}.

Lemma format_user_spec user first :
  User_get_first_name user = Ok first →
  format_user user =
    Ok (match od_get LAST_NAME (User__fields user) with
        | Some last =>
            if py_bool last then py_str last +:+ " " +:+ py_str first
            else py_str first
        | None => py_str first
        end).
Proof.
  intros Hfirst.
  unfold format_user, User_has_last_name, User___contains__,
    User_get_last_name, User___getitem__.
  destruct (od_get LAST_NAME (User__fields user)) as [last|]; simpl.
  - destruct (py_bool last); simpl; by rewrite Hfirst.
  - by rewrite Hfirst.
Qed.

(** X8. What the first acquisition logs for a user with a first name and an
    online flag: one line when online; when offline the status line and
    the last-seen line, or, without a last-seen hint, the status line
    followed by [KeyError]. The name is the first name, preceded by the
    last name when there is a non-empty one. *)
Theorem print_status_lines (user : User) (v first : pyval) :
  User_is_online user = Ok v →
  User_get_first_name user = Ok first →
  let name :=
    match od_get LAST_NAME (User__fields user) with
    | Some last =>
        if py_bool last then py_str last +:+ " " +:+ py_str first
        else py_str first
    | None => py_str first
    end in
  print_status user =
    if py_bool v then ([name +:+ " is ONLINE"], Ok tt)
    else
      match od_get LAST_SEEN (User__fields user) with
      | Some seen =>
          ([name +:+ " is OFFLINE";
            name +:+ " was last seen at " +:+ py_str seen], Ok tt)
      | None =>
          ([name +:+ " is OFFLINE"],
           Raise (KeyError (UserField_repr LAST_SEEN)))
      end.
Proof.
  intros Hv Hfirst name. pose proof (format_user_spec user first Hfirst) as Hn.
  fold name in Hn.
  unfold print_status. rewrite Hv, log_bind_lift_Ok.
  destruct (py_bool v).
  - unfold user_is_online, format_user_is_online. by rewrite Hn.
  - unfold user_is_offline, format_user_is_offline, format_user_last_seen,
      User_get_last_seen, User___getitem__.
    rewrite Hn; simpl.
    by destruct (od_get LAST_SEEN (User__fields user)).
Qed.

Lemma column_step_quiet_or_online old new :
  quiet_or_online old new →
  column_step old new =
    (if flags_differ old new then new else old,
     (if flags_differ old new then
        match format_user_went_online new with
        | Ok msg => [msg]
        | Raise _ => []
        end
      else [], Ok tt)).
Proof.
  intros [Hsame|(a & b & name & Ha & Hb & Hne & Hb' & Hname)].
  - rewrite (column_step_same_flag _ _ Hsame).
    destruct Hsame as (a & b & Ha & Hb & Heq).
    unfold flags_differ, py_ne. by rewrite Ha, Hb, Heq.
  - unfold column_step, flags_differ. rewrite Ha, Hb, Hne.
    unfold print_status_update. rewrite Hb, log_bind_lift_Ok, Hb'.
    unfold user_went_online, format_user_went_online. by rewrite Hname.
Qed.

(** X9. A cycle in which every position keeps its flag, or turns online
    with a fetched user that [format_user] can name, completes: exactly the
    changed positions get the fetched user stored, and exactly those are
    reported, once each and in the order of the list, as having gone
    online. A user without a first name is not covered: naming it raises
    [KeyError]. *)
Theorem update_all_went_online (users updated_users : list User) :
  Forall2 quiet_or_online users updated_users →
  update_all updated_users users =
    (stored_after users updated_users,
     (went_online_messages users updated_users, Ok tt))
  ∧ length (went_online_messages users updated_users) =
      length (filter (fun p => flags_differ p.1 p.2 = true)
                (zip users updated_users)).
Proof.
  rewrite update_all_zip. unfold stored_after, went_online_messages.
  induction 1 as [|old new users updated_users Hstep Hrest [IH IHlen]];
    [done|].
  pose proof (column_step_quiet_or_online _ _ Hstep) as Hcol.
  cbn [update_zip zip_with flat_map]. rewrite Hcol, IH.
  split; [done|].
  rewrite length_app, IHlen, filter_cons; simpl.
  destruct (flags_differ old new) eqn:Hd.
  - rewrite decide_True by done.
    destruct Hstep as [(a & b & Ha & Hb & Heq)|(a & b & name & _ & _ & _ & _ & Hn)].
    + unfold flags_differ, py_ne in Hd. rewrite Ha, Hb, Heq in Hd. done.
    + unfold format_user_went_online. by rewrite Hn.
  - by rewrite decide_False by done.
Qed.

Lemma column_step_choice old new :
  (column_step old new).1 = old ∨ (column_step old new).1 = new.
Proof.
  unfold column_step.
  destruct (User_is_online old) as [a|]; [|by left].
  destruct (User_is_online new) as [b|]; [|by left].
  destruct (py_ne a b); [by right | by left].
Qed.

Lemma update_zip_keeps_positions updated_users : ∀ users users' out,
  update_zip updated_users users = (users', out) →
  length users' = length users
  ∧ (∀ i u, users' !! i = Some u →
       users !! i = Some u ∨ updated_users !! i = Some u)
  ∧ drop (length updated_users) users' = drop (length updated_users) users.
Proof.
  induction updated_users as [|new updated_users IH];
    intros users users' out; simpl.
  - intros [= <- <-]. split; [done|]. split; [by left | done].
  - destruct users as [|old users].
    + intros [= <- <-]. split; [done|]. split; [by left | done].
    + pose proof (column_step_choice old new) as Hchoice.
      destruct (column_step old new) as [u [l [[]|e]]]; simpl in Hchoice.
      * destruct (update_zip updated_users users) as [us [l' r]] eqn:Hzip.
        intros [= <- <-].
        destruct (IH users us (l', r) Hzip) as (Hlen & Hpos & Hdrop).
        split; [by simpl; rewrite Hlen|]. split; [|done].
        intros [|i] w; simpl; [|apply Hpos].
        intros [= <-]. destruct Hchoice as [->| ->]; [by left | by right].
      * intros [= <- <-]. split; [done|]. split; [|done].
        intros [|i] w; simpl; [|by left].
        intros [= <-]. destruct Hchoice as [->| ->]; [by left | by right].
Qed.

(** X10. However a cycle ends, the stored list keeps its length, each
    position holds the user it held or the user fetched for that position,
    and the positions past the end of the fetched list are untouched. *)
Theorem update_all_keeps_positions (updated_users users users' : list User)
    (out : Log unit) :
  update_all updated_users users = (users', out) →
  length users' = length users
  ∧ (∀ i u, users' !! i = Some u →
       users !! i = Some u ∨ updated_users !! i = Some u)
  ∧ drop (length updated_users) users' = drop (length updated_users) users.
Proof. rewrite update_all_zip. apply update_zip_keeps_positions. Qed.






Lemma poll_app api more : ∀ users,
  poll (api ++ more) users =
    match poll api users with
    | (l, Running users') =>
        let '(l', o) := poll more users' in (l ++ l', o)
    | (l, Raised e) => (l, Raised e)
    end.
Proof.
  induction api as [|[updated_users|e] api IH]; intros users; simpl.
  - by destruct (poll more users).
  - destruct (update_all updated_users users) as [users' [l [[]|e]]]; [|done].
    rewrite IH. destruct (poll api users') as [l1 [us|e]]; [|done].
    destruct (poll more us) as [l2 o]. by rewrite app_assoc.
  - done.
Qed.

(** X13. A run can be cut anywhere after its first acquisition: the loop
    over [api ++ more] logs what the loop over [api] logs and then goes on
    polling [more] from the users it has stored; once it raised, nothing of
    [more] is looked at. *)
Theorem loop_update_status_app (first : result (list User))
    (api more : list (result (list User))) :
  loop_update_status (first :: api ++ more) =
    match loop_update_status (first :: api) with
    | (l, Running users) =>
        let '(l', o) := poll more users in (l ++ l', o)
    | (l, Raised e) => (l, Raised e)
    end.
Proof.
  destruct first as [users|e]; simpl; [|done].
  destruct (print_all users) as [l0 [[]|e]]; [|done].
  rewrite poll_app. destruct (poll api users) as [l1 [us|e]]; [|done].
  destruct (poll more us) as [l2 o]. by rewrite app_assoc.
Qed.
End TrackerMore.

(** ** [online_streak_duration.py]: the writers on failure, the CSV writer *)

Lemma process_database_app {W} `{OutputWriter W}
    (calls more : list (User * timedelta)) : ∀ writer : W,
  process_database (calls ++ more) writer =
    match process_database calls writer with
    | (writer', Ok _) => process_database more writer'
    | (writer', Raise e) => (writer', Raise e)
    end.
Proof.
  induction calls as [|[user duration] calls IH]; intros writer; simpl;
    [done|].
  destruct (add_user_duration writer user duration) as [writer'|e];
    [apply IH | done].
Qed.

(** X14. When a call fails for a user that lacks an identity field, the
    [with] statement still writes the array of the records added before
    it, and then lets the exception through; the calls after the failing
    one are not made. *)
Theorem OutputWriterJSON_partial_on_error (fd : list string)
    (good : list (User * timedelta)) (records : list json)
    (bad : User * timedelta) (rest : list (User * timedelta)) (e : exn) :
  Forall2 json_record good records →
  OutputWriterJSON__user_duration_to_object bad.1 bad.2 = Raise e →
  with_OutputWriterJSON fd (process_database (good ++ bad :: rest)) =
    (fd ++ [json_dumps (JArray records) 3], Raise e).
Proof.
  intros Hrecords Hbad.
  destruct (process_database_records _ _ Hrecords (OutputWriterJSON___init__ fd))
    as (objects & Hrun & Hjson).
  specialize (Hjson [] eq_refl). simpl in Hjson.
  unfold with_OutputWriterJSON. rewrite process_database_app, Hrun.
  destruct bad as [user duration]. simpl in Hbad. simpl.
  unfold OutputWriterJSON_add_user_duration. rewrite Hbad; simpl.
  unfold OutputWriterJSON___exit__; simpl. by rewrite Hjson.
Qed.

Lemma process_database_csv_rows calls rows :
  Forall2 csv_row calls rows →
  ∀ writer : OutputWriterCSV,
    process_database calls writer =
      (mkOutputWriterCSV (OutputWriterCSV__writer writer ++ rows), Ok tt).
Proof.
  induction 1 as [|[user duration] row calls rows Hrow _ IH]; intros writer;
    simpl.
  - rewrite app_nil_r. by destruct writer.
  - unfold csv_row in Hrow. simpl in Hrow.
    unfold OutputWriterCSV_add_user_duration. rewrite Hrow; simpl.
    rewrite IH. unfold OutputWriterCSV__write_row; simpl.
    by rewrite <- app_assoc.
Qed.

(** X15. The CSV writer hands each row to the file as the duration is
    added: after any number of the calls the file holds that many rows, in
    the order of the calls, and closing adds nothing. When a call fails
    the rows before it stay written and the exception goes through. *)
Theorem OutputWriterCSV_streams (fd : list (list pyval))
    (good : list (User * timedelta)) (rows : list (list pyval)) :
  Forall2 csv_row good rows →
  with_OutputWriterCSV fd (process_database good) = (fd ++ rows, Ok tt)
  ∧ (∀ k, process_database (take k good) (OutputWriterCSV___init__ fd) =
          (mkOutputWriterCSV (fd ++ take k rows), Ok tt))
  ∧ (∀ bad rest e,
       OutputWriterCSV__user_duration_to_row bad.1 bad.2 = Raise e →
       with_OutputWriterCSV fd (process_database (good ++ bad :: rest)) =
         (fd ++ rows, Raise e)).
Proof.
  intros Hrows. split; [|split].
  - unfold with_OutputWriterCSV.
    by rewrite (process_database_csv_rows _ _ Hrows).
  - intros k.
    by rewrite (process_database_csv_rows _ _ (Forall2_take _ _ _ k Hrows)).
  - intros [user duration] rest e Hbad. simpl in Hbad.
    unfold with_OutputWriterCSV.
    rewrite process_database_app, (process_database_csv_rows _ _ Hrows).
    simpl. unfold OutputWriterCSV_add_user_duration. by rewrite Hbad.
Qed.

(** X16. The two writers agree on a call: the CSV row is the list of the
    values of the JSON record, whose keys are [uid], [first_name],
    [last_name], [screen_name], [duration]; both fail with the same
    exception, and they fail exactly when the user lacks one of the four
    identity fields. *)
Theorem writers_agree (user : User) (duration : timedelta) :
  match OutputWriterJSON__user_duration_to_object user duration with
  | Ok record =>
      OutputWriterCSV__user_duration_to_row user duration = Ok record.*2
      ∧ record.*1 =
          ["uid"; "first_name"; "last_name"; "screen_name"; "duration"]
  | Raise e => OutputWriterCSV__user_duration_to_row user duration = Raise e
  end
  ∧ ((∃ record,
        OutputWriterJSON__user_duration_to_object user duration = Ok record)
     ↔ Forall (fun field => User___contains__ user field = true)
         _USER_FIELDS).
Proof.
  split.
  - unfold OutputWriterJSON__user_duration_to_object,
      OutputWriterCSV__user_duration_to_row, _USER_FIELDS.
    cbn [record_user_fields row_user_fields]. unfold User___getitem__.
    destruct (od_get UID (User__fields user)) as [v1|]; simpl; [|done].
    destruct (od_get FIRST_NAME (User__fields user)) as [v2|]; simpl; [|done].
    destruct (od_get LAST_NAME (User__fields user)) as [v3|]; simpl; [|done].
    by destruct (od_get SCREEN_NAME (User__fields user)) as [v4|]; simpl.
  - unfold OutputWriterJSON__user_duration_to_object, _USER_FIELDS.
    rewrite !Forall_cons, Forall_nil.
    cbn [record_user_fields]. unfold User___contains__, User___getitem__.
    destruct (od_get UID (User__fields user)) as [v1|]; simpl;
      [|split; [by intros [? [=]] | by intros [[=] _]]].
    destruct (od_get FIRST_NAME (User__fields user)) as [v2|]; simpl;
      [|split; [by intros [? [=]] | by intros (_ & [=] & _)]].
    destruct (od_get LAST_NAME (User__fields user)) as [v3|]; simpl;
      [|split; [by intros [? [=]] | by intros (_ & _ & [=] & _)]].
    destruct (od_get SCREEN_NAME (User__fields user)) as [v4|]; simpl;
      [|split; [by intros [? [=]] | by intros (_ & _ & _ & [=] & _)]].
    split; [done | by eexists].
Qed.

(** X17. [output_format] reads back what [str] gives for a format and
    accepts nothing else: it returns [fmt] exactly for the string
    [str(fmt)] and raises [ArgumentTypeError] for every other string. *)
Theorem output_format_spec (s : string) :
  (∀ fmt, output_format s = Ok fmt ↔ s = OutputFormat_str fmt)
  ∧ ((∀ fmt, s ≠ OutputFormat_str fmt) →
     output_format s = Raise (ArgumentTypeError EmptyString))
  ∧ (∀ fmt, output_format (OutputFormat_str fmt) = Ok fmt).
Proof.
  split; [|split].
  - intros fmt. unfold output_format, OutputFormat_of_value.
    destruct (String.eqb_spec s "csv") as [->|Hcsv].
    { destruct fmt; simpl; split; (done || by intros [=]). }
    destruct (String.eqb_spec s "json") as [->|Hjson].
    { destruct fmt; simpl; split; (done || by intros [=]). }
    destruct (String.eqb_spec s "img") as [->|Himg].
    { destruct fmt; simpl; split; (done || by intros [=]). }
    split; [done|]. by destruct fmt; simpl; intros ->.
  - intros Hnone. unfold output_format, OutputFormat_of_value.
    destruct (String.eqb_spec s "csv") as [->|_]; [by destruct (Hnone CSV)|].
    destruct (String.eqb_spec s "json") as [->|_];
      [by destruct (Hnone JSON)|].
    destruct (String.eqb_spec s "img") as [->|_]; [by destruct (Hnone IMG)|].
    done.
  - by intros [].
Qed.

(** ** [online_streak_duration.py]: the plot *)

Section PlotMore.
Context {R : Runtime}.

Lemma dict_setitem_decompose h key value d :
  User___hash__ key = Ok h →
  hashes_cached d →
  (∃ before h0 key0 old after,
     d = before ++ (h0, key0, old) :: after
     ∧ Forall (fun e => User___eq__ e.1.2 key = Ok false) before
     ∧ User___eq__ key0 key = Ok true
     ∧ dict_setitem h key value d =
         Ok (before ++ (h0, key0, value) :: after))
  ∨ (Forall (fun e => User___eq__ e.1.2 key = Ok false) d
     ∧ dict_setitem h key value d = Ok (d ++ [(h, key, value)])).
Proof.
  intros Hkey. induction d as [|[[h0 k0] v0] rest IH]; intros Hcached.
  - right. by split.
  - apply Forall_cons in Hcached as [Hk0 Hcached]; simpl in Hk0.
    destruct (User___eq___hashable k0 key h0 h Hk0 Hkey)
      as (same & Heq & _ & Hdiff).
    assert (Hrec : same = false →
      dict_setitem h key value ((h0, k0, v0) :: rest) =
        (rest' <- dict_setitem h key value rest ;;
         Ok ((h0, k0, v0) :: rest'))).
    { intros ->. cbn [dict_setitem]. rewrite Heq.
      by destruct (h0 =? h)%Z. }
    destruct same.
    + destruct (Z.eqb_spec h0 h) as [->|Hne]; [|by specialize (Hdiff Hne)].
      left. exists [], h, k0, v0, rest. split; [done|]. split; [done|].
      split; [done|]. cbn [dict_setitem]. by rewrite Z.eqb_refl, Heq.
    + rewrite (Hrec eq_refl).
      destruct (IH Hcached)
        as [(before & h1 & k1 & old & after & -> & Hbefore & Hk1 & ->)
           |[Hall ->]].
      * left. exists ((h0, k0, v0) :: before), h1, k1, old, after.
        split; [done|]. split; [by constructor|]. by split.
      * right. split; [by constructor | done].
Qed.

(** X18. Adding a duration for a user to the table of the plot either finds
    the first key equal to the user, keeps that key where it is and changes
    only its duration, or, when no key is equal, adds the user at the end.
    So the bars stay in the order the users were first seen and carry the
    snapshot first seen. *)
Theorem PlotBuilder_add_keeps_first_key (self self' : PlotBuilder)
    (user : User) (duration : timedelta) :
  hashes_cached (PlotBuilder__duration_by_user self) →
  PlotBuilder_add_user_duration self user duration = Ok self' →
  (∃ before h key old after,
     PlotBuilder__duration_by_user self = before ++ (h, key, old) :: after
     ∧ Forall (fun e => User___eq__ e.1.2 user = Ok false) before
     ∧ User___eq__ key user = Ok true
     ∧ PlotBuilder__duration_by_user self' =
         before ++ (h, key, duration) :: after
     ∧ PlotBuilder_keys self' = PlotBuilder_keys self)
  ∨ (∃ h,
       Forall (fun e => User___eq__ e.1.2 user = Ok false)
         (PlotBuilder__duration_by_user self)
       ∧ PlotBuilder__duration_by_user self' =
           PlotBuilder__duration_by_user self ++ [(h, user, duration)]
       ∧ PlotBuilder_keys self' = PlotBuilder_keys self ++ [user]).
Proof.
  intros Hcached (h & Hh & (d & Hset & [= <-])%result_bind_Ok)%result_bind_Ok.
  unfold PlotBuilder_keys; simpl.
  destruct (dict_setitem_decompose h user duration _ Hh Hcached)
    as [(before & h0 & key & old & after & Hd & Hbefore & Hkey & Hset')
       |[Hall Hset']]; rewrite Hset' in Hset; revert Hset; intros [= <-].
  - left. exists before, h0, key, old, after.
    rewrite Hd, !map_app. by repeat split.
  - right. exists h. rewrite map_app. by repeat split.
Qed.
End PlotMore.

Lemma bar_offsets_lookup (numof_bars i : nat) (t : Z) :
  bar_offsets numof_bars !! i = Some t ↔
    i < numof_bars ∧ t = (2 * Z.of_nat i + 1)%Z.
Proof.
  unfold bar_offsets, BarChartBuilder__BAR_HEIGHT.
  rewrite list_lookup_fmap, fmap_Some. split.
  - intros (j & [-> Hj]%lookup_seq & ->). split; [done | lia].
  - intros [Hi ->]. exists i. split; [by apply lookup_seq | lia].
Qed.

(** X19. [plot_bars] over at least one label makes the figure as many
    inches high as there are bars, labels the ticks with the labels, and
    places bar [i] at [2 i + 1] between the limits [0] and twice the number
    of bars: every bar is a full bar height inside the limits and two bar
    heights from the next. Without labels it draws nothing, hides the tick
    labels and makes the figure one inch high. *)
Theorem plot_bars_geometry {V : Type} (self : BarChartBuilder)
    (bar_labels : list string) (values : list V) :
  (bar_labels ≠ [] →
   let chart := (BarChartBuilder_plot_bars self bar_labels values).1 in
   let n := Z.of_nat (length bar_labels) in
   BarChartBuilder_height chart = Some n
   ∧ BarChartBuilder_bar_ticklabels chart = bar_labels
   ∧ length (BarChartBuilder_bar_ticks chart) = length bar_labels
   ∧ BarChartBuilder_bar_limits chart = Some (0, 2 * n)%Z
   ∧ (BarChartBuilder_plot_bars self bar_labels values).2 =
       Some (BarChartBuilder_bar_ticks chart, values)
   ∧ (∀ i t, BarChartBuilder_bar_ticks chart !! i = Some t →
        (0 + BarChartBuilder__BAR_HEIGHT ≤ t
         ∧ t + BarChartBuilder__BAR_HEIGHT ≤ 2 * n)%Z)
   ∧ (∀ i t t', BarChartBuilder_bar_ticks chart !! i = Some t →
        BarChartBuilder_bar_ticks chart !! S i = Some t' →
        t' = (t + 2 * BarChartBuilder__BAR_HEIGHT)%Z))
  ∧ (bar_labels = [] →
     BarChartBuilder_plot_bars self bar_labels values =
       (mkBarChartBuilder (Some 1%Z) (BarChartBuilder_bar_ticks self)
          (BarChartBuilder_bar_ticklabels self)
          (BarChartBuilder_bar_limits self) false, None)).
Proof.
  split.
  - intros Hlabels. unfold BarChartBuilder_plot_bars.
    destruct bar_labels as [|label rest]; [done|].
    set (labels := label :: rest).
    replace (length labels =? 0)%nat with false by done.
    cbn [fst snd BarChartBuilder_set_bar_axis_limits BarChartBuilder_set_height
           BarChartBuilder_height BarChartBuilder_bar_ticks
           BarChartBuilder_bar_ticklabels BarChartBuilder_bar_limits].
    unfold BarChartBuilder__BAR_HEIGHT.
    split; [done|]. split; [done|].
    split; [by unfold bar_offsets; rewrite length_map, length_seq|].
    split; [done|]. split; [done|]. split.
    + intros i t [Hi ->]%bar_offsets_lookup. lia.
    + intros i t t' [Hi ->]%bar_offsets_lookup [Hi' ->]%bar_offsets_lookup.
      lia.
  - by intros ->.
Qed.

(** ** The further properties on sample data *)

Lemma User_setitem_getitem_witness :
  ∃ self',
    User___setitem__ (R := sample_runtime) (anna true) SCREEN_NAME (VInt 7) =
      Ok self'
    ∧ User___getitem__ self' SCREEN_NAME = Ok (VStr "7")
    ∧ User___getitem__ self' UID = Ok (VInt 1)
    ∧ User___len__ self' = 6.
Proof.
  eexists. split; [reflexivity|].
  destruct (User_setitem_getitem (R := sample_runtime) (anna true) SCREEN_NAME
              (VInt 7) _ eq_refl) as (Hget & Hother & Hlen & _).
  split; [exact Hget|]. split; [|exact Hlen].
  rewrite Hother by discriminate. reflexivity.
Defined.

Lemma User_reassign_stored_witness :
  User___getitem__
    (mutate_all (R := sample_runtime) (User___init__ None)
       [SetItem UID (VStr "12"); SetItem ONLINE (VInt 1)]) UID = Ok (VInt 12)
  ∧ User___setitem__ (R := sample_runtime)
      (mutate_all (R := sample_runtime) (User___init__ None)
         [SetItem UID (VStr "12"); SetItem ONLINE (VInt 1)]) UID (VInt 12) =
      Ok (mkUser [(UID, VInt 12); (ONLINE, VBool true)]).
Proof.
  split; [reflexivity|].
  exact (User_reassign_stored (R := sample_runtime)
           [SetItem UID (VStr "12"); SetItem ONLINE (VInt 1)] UID (VInt 12)
           eq_refl).
Defined.

Lemma User_delitem_spec_witness :
  NoDup (User___iter__ (anna true))
  ∧ User___delitem__ (anna true) SCREEN_NAME =
      Raise (KeyError "<UserField.SCREEN_NAME: 'screen_name'>")
  ∧ ∃ self', User___delitem__ (anna true) LAST_SEEN = Ok self'
      ∧ User___contains__ self' LAST_SEEN = false
      ∧ User___len__ self' = 4.
Proof.
  assert (Hnodup : NoDup (User___iter__ (anna true))).
  { apply (bool_decide_unpack _). vm_compute. exact I. }
  split; [exact Hnodup|].
  destruct (User_delitem_spec (anna true) SCREEN_NAME Hnodup) as [Hraise _].
  split; [exact (Hraise eq_refl)|].
  destruct (User_delitem_spec (anna true) LAST_SEEN Hnodup) as [_ Hdel].
  destruct (Hdel eq_refl) as (self' & Hok & Hgone & _ & Hlen & _).
  exists self'. split; [exact Hok|]. split; [exact Hgone|].
  simpl in Hlen. by injection Hlen.
Defined.

Lemma User_from_api_response_fields_witness :
  User_from_api_response (R := sample_runtime)
    [("online", VInt 1); ("uid", VStr "12"); ("nickname", VStr "ann");
     ("first_name", VStr "Ann")] =
    Ok (mkUser [(UID, VInt 12); (FIRST_NAME, VStr "Ann"); (ONLINE, VBool true)])
  ∧ User___iter__
      (mkUser [(UID, VInt 12); (FIRST_NAME, VStr "Ann"); (ONLINE, VBool true)]) =
      [UID; FIRST_NAME; ONLINE].
Proof.
  split; [reflexivity|].
  exact (proj2 (proj2 (User_from_api_response_fields (R := sample_runtime)
    [("online", VInt 1); ("uid", VStr "12"); ("nickname", VStr "ann");
     ("first_name", VStr "Ann")]
    (mkUser [(UID, VInt 12); (FIRST_NAME, VStr "Ann"); (ONLINE, VBool true)])
    eq_refl))).
Defined.

Lemma User_from_api_response_succeeds_witness :
  User_from_api_response (R := sample_runtime)
    [("uid", VStr "12"); ("online", VStr "yes")] = Raise ValueError
  ∧ ∃ field v,
      od_get (UserField_str field) [("uid", VStr "12"); ("online", VStr "yes")]
        = Some v
      ∧ User_parse (R := sample_runtime) field v = Raise ValueError.
Proof.
  split; [reflexivity|].
  exact (proj2 (User_from_api_response_succeeds (R := sample_runtime)
                  [("uid", VStr "12"); ("online", VStr "yes")])
           ValueError eq_refl).
Defined.

Lemma User_from_api_response_ext_witness :
  (∀ field,
     od_get (UserField_str field) [("uid", VInt 5); ("online", VInt 0)] =
     od_get (UserField_str field)
       [("sex", VInt 2); ("online", VInt 0); ("uid", VInt 5)])
  ∧ User_from_api_response (R := sample_runtime)
      [("uid", VInt 5); ("online", VInt 0)] =
    User_from_api_response (R := sample_runtime)
      [("sex", VInt 2); ("online", VInt 0); ("uid", VInt 5)].
Proof.
  assert (Hsame : ∀ field,
     od_get (UserField_str field) [("uid", VInt 5); ("online", VInt 0)] =
     od_get (UserField_str field)
       [("sex", VInt 2); ("online", VInt 0); ("uid", VInt 5)]).
  { intros []; reflexivity. }
  split; [exact Hsame|].
  exact (User_from_api_response_ext (R := sample_runtime) _ _ Hsame).
Defined.

Lemma User___eq___equivalence_witness :
  User___hash__ (R := sample_runtime) (anna true) = Ok 1%Z
  ∧ User___hash__ (R := sample_runtime) (mkUser [(UID, VBool true)]) = Ok 1%Z
  ∧ User___eq__ (anna true) (anna true) = Ok true
  ∧ User___eq__ (anna true) (mkUser [(UID, VBool true)]) = Ok true.
Proof.
  split; [reflexivity|]. split; [reflexivity|].
  destruct (User___eq___equivalence (R := sample_runtime)
              (anna true) (anna false) (mkUser [(UID, VBool true)])
              1 1 1 eq_refl eq_refl eq_refl) as (Hrefl & _ & Htrans).
  split; [exact Hrefl|]. exact (Htrans eq_refl eq_refl).
Defined.

Lemma print_status_lines_witness :
  User_is_online unseen = Ok (VBool false)
  ∧ User_get_first_name unseen = Ok (VStr "Vera")
  ∧ print_status (R := sample_runtime) unseen =
      (["Vera is OFFLINE"],
       Raise (KeyError "<UserField.LAST_SEEN: 'last_seen'>")).
Proof.
  split; [reflexivity|]. split; [reflexivity|].
  exact (print_status_lines (R := sample_runtime) unseen (VBool false)
           (VStr "Vera") eq_refl eq_refl).
Defined.

Lemma update_all_went_online_witness :
  Forall2 (quiet_or_online (R := sample_runtime))
    [anna false; boris true] [anna true; boris true]
  ∧ update_all (R := sample_runtime)
      [anna true; boris true] [anna false; boris true] =
      ([anna true; boris true], (["Orlova Anna went ONLINE"], Ok tt)).
Proof.
  assert (Hsteps : Forall2 (quiet_or_online (R := sample_runtime))
                     [anna false; boris true] [anna true; boris true]).
  { constructor; [|constructor; [|constructor]].
    - right. eexists _, _, _. repeat split; reflexivity.
    - left. eexists _, _. repeat split; reflexivity. }
  split; [exact Hsteps|].
  exact (proj1 (update_all_went_online (R := sample_runtime) _ _ Hsteps)).
Defined.

Lemma update_all_keeps_positions_witness :
  update_all (R := sample_runtime) [anna false] [anna true; boris false; unseen] =
    ([anna false; boris false; unseen],
     ([], Raise (NameError "format_usre_went_offline")))
  ∧ length [anna false; boris false; unseen] =
      length [anna true; boris false; unseen]
  ∧ drop 1 [anna false; boris false; unseen] =
      drop 1 [anna true; boris false; unseen].
Proof.
  split; [reflexivity|].
  destruct (update_all_keeps_positions (R := sample_runtime)
              [anna false] [anna true; boris false; unseen]
              [anna false; boris false; unseen]
              ([], Raise (NameError "format_usre_went_offline")) eq_refl)
    as (Hlen & _ & Hdrop).
  split; [exact Hlen | exact Hdrop].
Defined.



Lemma loop_update_status_app_witness :
  loop_update_status (R := sample_runtime)
    (Ok [anna false] :: [Ok [anna false]] ++ [Ok [anna true]]) =
    (["Orlova Anna is OFFLINE"; "Orlova Anna was last seen at 1450000000";
      "Orlova Anna went ONLINE"], Running [anna true]).
Proof.
  rewrite (loop_update_status_app (R := sample_runtime)).
  reflexivity.
Defined.

Lemma OutputWriterJSON_partial_on_error_witness :
  Forall2 json_record
    [(sample_profile 1 "Anna" "Orlova" "anna", mkTimedelta 0 75 0)]
    [JObject [("uid", JInt 1); ("first_name", JStr "Anna");
              ("last_name", JStr "Orlova"); ("screen_name", JStr "anna");
              ("duration", JStr "0:01:15")]]
  ∧ OutputWriterJSON__user_duration_to_object (boris true)
      (mkTimedelta 0 30 0) =
      Raise (KeyError "<UserField.SCREEN_NAME: 'screen_name'>")
  ∧ with_OutputWriterJSON []
      (process_database
         ([(sample_profile 1 "Anna" "Orlova" "anna", mkTimedelta 0 75 0)]
          ++ (boris true, mkTimedelta 0 30 0)
             :: [(sample_profile 4 "Gleb" "Sidorov" "gleb",
                  mkTimedelta 0 5 0)])) =
      ([] ++
       [json_dumps
          (JArray
             [JObject [("uid", JInt 1); ("first_name", JStr "Anna");
                       ("last_name", JStr "Orlova");
                       ("screen_name", JStr "anna");
                       ("duration", JStr "0:01:15")]]) 3],
       Raise (KeyError "<UserField.SCREEN_NAME: 'screen_name'>")).
Proof.
  assert (Hrecords : Forall2 json_record
    [(sample_profile 1 "Anna" "Orlova" "anna", mkTimedelta 0 75 0)]
    [JObject [("uid", JInt 1); ("first_name", JStr "Anna");
              ("last_name", JStr "Orlova"); ("screen_name", JStr "anna");
              ("duration", JStr "0:01:15")]]).
  { constructor; [|constructor].
    unfold json_record; eexists _, _, _, _, _, _, _, _;
      repeat split; reflexivity. }
  split; [exact Hrecords|]. split; [reflexivity|].
  exact (OutputWriterJSON_partial_on_error [] _ _
           (boris true, mkTimedelta 0 30 0) _ _ Hrecords eq_refl).
Defined.

Lemma OutputWriterCSV_streams_witness :
  Forall2 csv_row
    [(sample_profile 1 "Anna" "Orlova" "anna", mkTimedelta 0 75 0);
     (sample_profile 2 "Boris" "Petrov" "id2", mkTimedelta 1 3600 0)]
    [[VInt 1; VStr "Anna"; VStr "Orlova"; VStr "anna"; VStr "0:01:15"];
     [VInt 2; VStr "Boris"; VStr "Petrov"; VStr "id2";
      VStr "1 day, 1:00:00"]]
  ∧ with_OutputWriterCSV []
      (process_database
         [(sample_profile 1 "Anna" "Orlova" "anna", mkTimedelta 0 75 0);
          (sample_profile 2 "Boris" "Petrov" "id2", mkTimedelta 1 3600 0)]) =
      ([] ++
       [[VInt 1; VStr "Anna"; VStr "Orlova"; VStr "anna"; VStr "0:01:15"];
        [VInt 2; VStr "Boris"; VStr "Petrov"; VStr "id2";
         VStr "1 day, 1:00:00"]], Ok tt).
Proof.
  assert (Hrows : Forall2 csv_row
    [(sample_profile 1 "Anna" "Orlova" "anna", mkTimedelta 0 75 0);
     (sample_profile 2 "Boris" "Petrov" "id2", mkTimedelta 1 3600 0)]
    [[VInt 1; VStr "Anna"; VStr "Orlova"; VStr "anna"; VStr "0:01:15"];
     [VInt 2; VStr "Boris"; VStr "Petrov"; VStr "id2";
      VStr "1 day, 1:00:00"]]).
  { repeat constructor. }
  split; [exact Hrows|].
  exact (proj1 (OutputWriterCSV_streams [] _ _ Hrows)).
Defined.

Lemma writers_agree_witness :
  OutputWriterCSV__user_duration_to_row
    (sample_profile 1 "Anna" "Orlova" "anna") (mkTimedelta 0 75 0) =
    Ok [VInt 1; VStr "Anna"; VStr "Orlova"; VStr "anna"; VStr "0:01:15"]
  ∧ OutputWriterCSV__user_duration_to_row (nameless 9 true)
      (mkTimedelta 0 75 0) =
      Raise (KeyError "<UserField.FIRST_NAME: 'first_name'>").
Proof.
  pose proof (proj1 (writers_agree (sample_profile 1 "Anna" "Orlova" "anna")
                       (mkTimedelta 0 75 0))) as Hgood.
  pose proof (proj1 (writers_agree (nameless 9 true) (mkTimedelta 0 75 0)))
    as Hbad.
  split; [exact (proj1 Hgood) | exact Hbad].
Defined.

Lemma output_format_spec_witness :
  output_format "json" = Ok JSON
  ∧ output_format "xml" = Raise (ArgumentTypeError EmptyString).
Proof.
  split.
  - exact (proj2 (proj1 (output_format_spec "json") JSON) eq_refl).
  - apply (proj1 (proj2 (output_format_spec "xml"))).
    intros []; discriminate.
Defined.

Lemma PlotBuilder_add_keeps_first_key_witness :
  hashes_cached (R := sample_runtime)
    [(1%Z, anna true, mkTimedelta 0 30 0); (2%Z, boris true, mkTimedelta 0 5 0)]
  ∧ PlotBuilder_add_user_duration (R := sample_runtime)
      (mkPlotBuilder [(1%Z, anna true, mkTimedelta 0 30 0);
                      (2%Z, boris true, mkTimedelta 0 5 0)])
      (anna false) (mkTimedelta 0 45 0) =
      Ok (mkPlotBuilder [(1%Z, anna true, mkTimedelta 0 45 0);
                         (2%Z, boris true, mkTimedelta 0 5 0)])
  ∧ (PlotBuilder_keys
       (mkPlotBuilder [(1%Z, anna true, mkTimedelta 0 45 0);
                       (2%Z, boris true, mkTimedelta 0 5 0)]) =
       [anna true; boris true]
     ∨ PlotBuilder_keys
         (mkPlotBuilder [(1%Z, anna true, mkTimedelta 0 45 0);
                         (2%Z, boris true, mkTimedelta 0 5 0)]) =
         [anna true; boris true] ++ [anna false]).
Proof.
  assert (Hcached : hashes_cached (R := sample_runtime)
    [(1%Z, anna true, mkTimedelta 0 30 0);
     (2%Z, boris true, mkTimedelta 0 5 0)]).
  { repeat constructor. }
  split; [exact Hcached|]. split; [reflexivity|].
  destruct (PlotBuilder_add_keeps_first_key (R := sample_runtime)
              (mkPlotBuilder [(1%Z, anna true, mkTimedelta 0 30 0);
                              (2%Z, boris true, mkTimedelta 0 5 0)])
              (mkPlotBuilder [(1%Z, anna true, mkTimedelta 0 45 0);
                              (2%Z, boris true, mkTimedelta 0 5 0)])
              (anna false) (mkTimedelta 0 45 0) Hcached eq_refl)
    as [(before & h & key & old & after & _ & _ & _ & _ & Hkeys)
       |(h & _ & _ & Hkeys)].
  - left. exact Hkeys.
  - right. exact Hkeys.
Defined.

Lemma plot_bars_geometry_witness :
  BarChartBuilder_bar_ticks
    (BarChartBuilder_plot_bars BarChartBuilder___init__
       ["Anna"; "Boris"; "Vera"] [30%Z; 45%Z; 0%Z]).1 = [1; 3; 5]%Z
  ∧ BarChartBuilder_bar_limits
      (BarChartBuilder_plot_bars BarChartBuilder___init__
         ["Anna"; "Boris"; "Vera"] [30%Z; 45%Z; 0%Z]).1 = Some (0, 6)%Z
  ∧ BarChartBuilder_height
      (BarChartBuilder_plot_bars BarChartBuilder___init__
         ["Anna"; "Boris"; "Vera"] [30%Z; 45%Z; 0%Z]).1 = Some 3%Z.
Proof.
  destruct (proj1 (plot_bars_geometry BarChartBuilder___init__
                     ["Anna"; "Boris"; "Vera"] [30%Z; 45%Z; 0%Z]))
    as (Hheight & _ & _ & Hlimits & _); [discriminate|].
  split; [reflexivity|]. split; [exact Hlimits | exact Hheight].
Defined.
